(** * MLflow: the [Metric] entity and the system metrics monitor

    A shallow embedding of [mlflow/entities/metric.py] and
    [mlflow/system_metrics/system_metrics_monitor.py], and the properties
    of both that the design document states. *)

From Stdlib Require Import ZArith SpecFloat.
From stdpp Require Import gmap strings list fin_maps sorting.

Open Scope Z_scope.

(** ** Python values and exceptions *)

Module py.

(** The exceptions that occur; all of them are subclasses of [Exception],
    so an [except Exception] clause catches every one of them. *)
Inductive exn :=
| AttributeError (attr : string)
| TypeError (what : string)
| ValueError (msg : string)
| RuntimeError (msg : string)
| Exception (msg : string).

(** A call either returns or raises. *)
Inductive result (A : Type) :=
| Ok (a : A)
| Raise (e : exn).
Arguments Ok {A} a.
Arguments Raise {A} e.

#[export] Instance result_ret : MRet result := fun A a => Ok a.
#[export] Instance result_bind : MBind result := fun A B f m =>
  match m with
  | Ok a => f a
  | Raise e => Raise e
  end.

(** A Python [float] is an IEEE 754 number; [spec_float] has its zeros,
    infinities, NaN and finite numbers. *)
Abbreviation float := spec_float.

(** The values held by the attributes of a [Metric]. *)
Inductive value :=
| VStr (s : string)
| VInt (z : Z)
| VFloat (f : float)
| VDict (d : gmap string string).

(** [z == f] for an [int] and a [float]: Python compares the two numbers
    exactly. *)
Definition int_eq_float (z : Z) (f : float) : bool :=
  match f with
  | S754_zero _ => z =? 0
  | S754_finite s m e =>
      let sm := if s then Z.neg m else Z.pos m in
      if 0 <=? e then z =? sm * 2 ^ e else z * 2 ^ (- e) =? sm
  | S754_infinity _ | S754_nan => false
  end.

(** Python's [==] on these values, for two objects that are not one and
    the same, as the attributes of two instances are when one of them
    was built from a message.  On floats it is the IEEE comparison: NaN
    differs from every float, itself included. *)
Definition py_eq (a b : value) : bool :=
  match a, b with
  | VStr s, VStr t => bool_decide (s = t)
  | VInt x, VInt y => x =? y
  | VFloat f, VFloat g => SFeqb f g
  | VInt x, VFloat g => int_eq_float x g
  | VFloat f, VInt y => int_eq_float y f
  | VDict d, VDict d' => bool_decide (d = d')
  | _, _ => false
  end.

(** [a == b] for two attribute dictionaries: the same number of keys, and
    each key of [a] is in [b] with an equal value. *)
Definition dict_eq (a b : gmap string value) : bool :=
  (size a =? size b)%nat &&
  forallb (fun kv => match b !! kv.1 with
                     | Some v' => py_eq kv.2 v'
                     | None => false
                     end) (map_to_list a).

End py.

Import py.

(** ** mlflow/entities/metric.py *)

Module metric.

(** [ProtoMetric] and [ProtoMetric.Dimension] are generated from the
    service's protocol definition, which is not among the sources.  They
    are taken as the messages that [to_proto] and [from_proto] use: the
    scalar fields [key] (a string), [value] (a double), [timestamp] and
    [step] (both [int64]), and the repeated field [dimensions]. *)
Record Dimension := mkDimension {
  dim_key : string;
  dim_value : string;
}.

(** A field of type [int64] holds an integer of the signed 64-bit range,
    and nothing else. *)
Definition int64_range (z : Z) : Prop := - 2 ^ 63 <= z < 2 ^ 63.

Definition int64 : Type := dsig int64_range.

Record ProtoMetric := mkProtoMetric {
  proto_key : string;
  proto_value : float;
  proto_timestamp : int64;
  proto_step : int64;
  dimensions : list Dimension;
}.

(** A [Metric] instance is its attribute dictionary.  The class and its
    base add properties and methods, none under a name that starts with
    an underscore followed by a letter. *)
Record Metric := mkMetric { __dict__ : gmap string value }.

(** What [__eq__] may be handed: another [Metric], or anything else. *)
Inductive object :=
| MetricObject (m : Metric)
| OtherObject (v : value).

Definition getattr (self : Metric) (name : string) : result value :=
  match __dict__ self !! name with
  | Some v => Ok v
  | None => Raise (AttributeError name)
  end.

Definition setattr (self : Metric) (name : string) (v : value) : Metric :=
  mkMetric (<[name := v]> (__dict__ self)).

(** [tags or {}]: [None] and the empty dictionary are both falsy. *)
Definition tags_or_empty (tags : option (gmap string string))
  : gmap string string :=
  match tags with
  | Some d => if bool_decide (d = ∅) then ∅ else d
  | None => ∅
  end.

Definition __init__ (key : string) (value : float) (timestamp step : Z)
    (tags : option (gmap string string)) : Metric :=
  let self := mkMetric ∅ in
  let self := setattr self "_key" (VStr key) in
  let self := setattr self "_value" (VFloat value) in
  let self := setattr self "_timestamp" (VInt timestamp) in
  let self := setattr self "_step" (VInt step) in
  setattr self "_tags" (VDict (tags_or_empty tags)).

(** The properties. *)
Definition key (self : Metric) : result value := getattr self "_key".
Definition value (self : Metric) : result py.value := getattr self "_value".
Definition timestamp (self : Metric) : result py.value :=
  getattr self "_timestamp".
Definition step (self : Metric) : result py.value := getattr self "_step".
Definition tags (self : Metric) : result py.value := getattr self "_tags".

(** Assigning to a field of a message checks the type of the value and,
    for an [int64] field, its range: an integer outside of it raises
    [ValueError]. *)
Definition as_str (v : py.value) : result string :=
  match v with VStr s => Ok s | _ => Raise (TypeError "str") end.
Definition as_float (v : py.value) : result float :=
  match v with
  | VFloat f => Ok f
  | _ => Raise (TypeError "float")
  end.
Definition as_int64 (v : py.value) : result int64 :=
  match v with
  | VInt z =>
      match decide (int64_range z) with
      | left in_range => Ok (dexist z in_range)
      | right _ => Raise (ValueError "Value out of range")
      end
  | _ => Raise (TypeError "int")
  end.
Definition items (v : py.value) : result (list (string * string)) :=
  match v with
  | VDict d => Ok (map_to_list d)
  | _ => Raise (AttributeError "items")
  end.

(** [sorted(v)] for a dictionary: its keys. *)
Definition sorted (v : py.value) : result (list string) :=
  match v with
  | VDict d => Ok (merge_sort String.leb (map_to_list d).*1)
  | _ => Raise (TypeError "sorted")
  end.

(** [v[k]] for a dictionary. *)
Definition getitem (v : py.value) (k : string) : result string :=
  match v with
  | VDict d =>
      match d !! k with
      | Some x => Ok x
      | None => Raise (Exception "KeyError")
      end
  | _ => Raise (TypeError "subscript")
  end.

Definition to_proto (self : Metric) : result ProtoMetric :=
  t ← tags self;
  kvs ← items t;
  let dims := (fun kv => mkDimension kv.1 kv.2) <$> kvs in
  k ← key self; k ← as_str k;
  v ← value self; v ← as_float v;
  ts ← timestamp self; ts ← as_int64 ts;
  s ← step self; s ← as_int64 s;
  mret (mkProtoMetric k v ts s dims).

(** [{d.key: d.value for d in dims}]: a later entry replaces an earlier
    one with the same key. *)
Definition dict_of_dimensions (dims : list Dimension) : gmap string string :=
  fold_left (fun acc d => <[dim_key d := dim_value d]> acc) dims ∅.

Definition from_proto (proto : ProtoMetric) : Metric :=
  __init__ (proto_key proto) (proto_value proto)
    (proj1_sig (proto_timestamp proto)) (proj1_sig (proto_step proto))
    (Some (dict_of_dimensions (dimensions proto))).

Definition __eq__ (self : Metric) (__o : object) : bool :=
  match __o with
  | MetricObject o => dict_eq (__dict__ self) (__dict__ o)
  | OtherObject _ => false
  end.

Section hashing.

(** Python's [hash] of the tuple built by [__hash__]. *)
Variable hash : list py.value -> list (string * string) -> Z.

(** [(k, self._dimensions[k]) for k in ks]; the attribute is read again
    for each key. *)
Fixpoint dimension_tuples (self : Metric) (ks : list string)
  : result (list (string * string)) :=
  match ks with
  | [] => Ok []
  | k :: ks =>
      d ← getattr self "_dimensions";
      v ← getitem d k;
      rest ← dimension_tuples self ks;
      mret ((k, v) :: rest)
  end.

(** The iterable [sorted(self._dimensions)] of the generator is evaluated
    first. *)
Definition __hash__ (self : Metric) : result Z :=
  d ← getattr self "_dimensions";
  ks ← sorted d;
  dts ← dimension_tuples self ks;
  k ← getattr self "_key";
  v ← getattr self "_value";
  ts ← getattr self "_timestamp";
  s ← getattr self "_step";
  mret (hash [k; v; ts; s] dts).

End hashing.

End metric.

(** ** mlflow/system_metrics/system_metrics_monitor.py *)

Module system_metrics_monitor.

(** An [int] or a [float], as [sampling_interval] is. *)
Inductive number :=
| Int (z : Z)
| Float (f : float).

(** Truth value of a number: zero is falsy (NaN is not zero). *)
Definition truthy (n : number) : bool :=
  match n with
  | Int z => negb (z =? 0)
  | Float (S754_zero _) => false
  | Float _ => true
  end.

(** [threading.TIMEOUT_MAX], the longest timeout that a wait takes, is a
    constant of the platform: 4294967 seconds where a lock waits by
    milliseconds counted in 32 bits, 9223372036 seconds where it waits by
    nanoseconds counted in 64 bits.  The lesser is taken: a timeout
    within it is within the maximum of either platform. *)
Definition TIMEOUT_MAX : Z := 4294967.

(** Whether [Event.wait(timeout)] takes the timeout when the event is not
    set.  It does not block for a timeout that is not positive, it blocks
    for a positive one up to [TIMEOUT_MAX], and it raises [OverflowError]
    for one beyond, infinity included.  NaN is left out. *)
Definition wait_accepts (timeout : number) : bool :=
  match timeout with
  | Int z => z <=? TIMEOUT_MAX
  | Float (S754_zero _) => true
  | Float (S754_infinity negative) => negative
  | Float S754_nan => false
  | Float (S754_finite true _ _) => true
  | Float (S754_finite false m e) =>
      if 0 <=? e then Z.pos m * 2 ^ e <=? TIMEOUT_MAX
      else Z.pos m <=? TIMEOUT_MAX * 2 ^ (- e)
  end.

(** [a or b], where [a] is [None] or a value whose truth [truth] tells. *)
Definition or_else {A} (truth : A -> bool) (a : option A) (b : A) : A :=
  match a with
  | Some x => if truth x then x else b
  | None => b
  end.

(** The classes [CPUMonitor], [DiskMonitor], [NetworkMonitor] and
    [GPUMonitor] are not among the sources.  A source is taken through
    the four members the monitor uses: the methods [collect_metrics],
    [aggregate_metrics] and [clear_metrics], and the attribute
    [_metrics].  The methods are taken to return: a source logs a
    reading that fails and goes on. *)
Module source.
Class Source (S V : Type) := {
  collect_metrics : S -> S;
  _metrics : S -> gmap string (list V);
  aggregate_metrics : S -> gmap string V;
  clear_metrics : S -> S;
}.
End source.

Inductive level := INFO | WARNING | ERROR.

(** The messages of the module, by the exception they report. *)
Inductive message :=
| SkipGpu (e : exn)
| StartedMonitoring
| FailedToStart (e : exn)
| FailedToGetRun (e : exn)
| FailedToLog (e : exn)
| Stopping
| Terminated
| ErrorTerminating (e : exn).

(** What is done to [monitors[i]]. *)
Inductive source_op := Collect | ReadMetrics | Aggregate | Clear.

Record Thread := mkThread {
  daemon : bool;
  name : string;
}.

(** Where the background thread stands in [monitor]: at the test of the
    [while] loop, in the [for] loop with some iterations to go, after the
    [for] loop, or returned. *)
Inductive pc :=
| AtWhile
| InFor (remaining : nat)
| AfterFor
| Exited.

(** The run status store and the metrics logger: what the n-th call of
    each answers.  [get_run] gives [run.info.status] or raises;
    [record_metrics] returns or raises. *)
Record Env := mkEnv {
  env_get_run : nat -> result string;
  env_record_metrics : nat -> option exn;
}.

(** A call returns, raises, or is still waiting when its fuel is spent
    (only [join] waits). *)
Inductive outcome (A : Type) :=
| Returns (a : A)
| Raises (e : exn)
| Waits.
Arguments Returns {A} a.
Arguments Raises {A} e.
Arguments Waits {A}.

(** What the body of a loop [for monitor in self.monitors] does with
    [monitor]: it calls one of the three methods of the source or reads
    its attribute [_metrics], and goes on with what that gave, until it
    is done with the source.  A body reaches a source in no other way. *)
Inductive access (V A : Type) :=
| Done (a : A)
| Call_collect_metrics (rest : access V A)
| Read__metrics (rest : gmap string (list V) -> access V A)
| Call_aggregate_metrics (rest : gmap string V -> access V A)
| Call_clear_metrics (rest : access V A).
Arguments Done {V A} a.
Arguments Call_collect_metrics {V A} rest.
Arguments Read__metrics {V A} rest.
Arguments Call_aggregate_metrics {V A} rest.
Arguments Call_clear_metrics {V A} rest.

Section monitor.

Context {S V : Type} {src : source.Source S V}.

Inductive event :=
| SourceCall (i : nat) (op : source_op)
| EventWait (timeout : number)
| GetRun (run_id : string)
| RecordMetrics (metrics : gmap string V) (step : Z) (failure : option exn)
| ThreadStart (failure : option exn)
| ThreadJoin (failure : option exn)
| Uncaught (e : exn)
| Log (lvl : level) (msg : message).

(** The attributes of the object.  [_shutdown_event] is the flag of the
    event; [mlflow_logger] is the logger of [Env]. *)
Record SystemMetricsMonitor := mkMonitor {
  monitors : list S;
  sampling_interval : number;
  samples_before_logging : Z;
  _run_id : string;
  _shutdown_event : bool;
  _process : option Thread;
  _logging_step : Z;
}.

(** The object, its background thread, what has happened so far, and how
    often the two collaborators have been called. *)
Record World := mkWorld {
  self : SystemMetricsMonitor;
  thread : option pc;
  trace : list event;
  get_run_calls : nat;
  record_metrics_calls : nat;
}.

Definition set_monitors (ms : list S) (m : SystemMetricsMonitor) :=
  mkMonitor ms (sampling_interval m) (samples_before_logging m) (_run_id m)
    (_shutdown_event m) (_process m) (_logging_step m).
Definition set_shutdown_event (b : bool) (m : SystemMetricsMonitor) :=
  mkMonitor (monitors m) (sampling_interval m) (samples_before_logging m)
    (_run_id m) b (_process m) (_logging_step m).
Definition set_process (p : option Thread) (m : SystemMetricsMonitor) :=
  mkMonitor (monitors m) (sampling_interval m) (samples_before_logging m)
    (_run_id m) (_shutdown_event m) p (_logging_step m).
Definition set_logging_step (n : Z) (m : SystemMetricsMonitor) :=
  mkMonitor (monitors m) (sampling_interval m) (samples_before_logging m)
    (_run_id m) (_shutdown_event m) (_process m) n.

Definition set_self (m : SystemMetricsMonitor) (w : World) :=
  mkWorld m (thread w) (trace w) (get_run_calls w) (record_metrics_calls w).
Definition set_thread (t : option pc) (w : World) :=
  mkWorld (self w) t (trace w) (get_run_calls w) (record_metrics_calls w).
Definition add_events (evs : list event) (w : World) :=
  mkWorld (self w) (thread w) (trace w ++ evs) (get_run_calls w)
    (record_metrics_calls w).
Definition count_get_run (w : World) :=
  mkWorld (self w) (thread w) (trace w) (Datatypes.S (get_run_calls w))
    (record_metrics_calls w).
Definition count_record_metrics (w : World) :=
  mkWorld (self w) (thread w) (trace w) (get_run_calls w)
    (Datatypes.S (record_metrics_calls w)).

(** *** Computations on the world *)

Definition M (A : Type) : Type := World -> outcome A * World.

Definition ret {A} (a : A) : M A := fun w => (Returns a, w).
Definition bind {A B} (m : M A) (f : A -> M B) : M B := fun w =>
  match m w with
  | (Returns a, w') => f a w'
  | (Raises e, w') => (Raises e, w')
  | (Waits, w') => (Waits, w')
  end.

Notation "'let*' x ':=' m 'in' k" := (bind m (fun x => k))
  (at level 10, x name, m at level 100, k at level 200).
Notation "m >> k" := (bind m (fun _ => k))
  (at level 100, k at level 200, right associativity).

Definition gets {A} (f : SystemMetricsMonitor -> A) : M A :=
  fun w => (Returns (f (self w)), w).
Definition modify (f : SystemMetricsMonitor -> SystemMetricsMonitor)
  : M unit :=
  fun w => (Returns tt, set_self (f (self w)) w).
Definition emit (e : event) : M unit :=
  fun w => (Returns tt, add_events [e] w).
Definition raise {A} (e : exn) : M A := fun w => (Raises e, w).
Definition log (lvl : level) (msg : message) : M unit := emit (Log lvl msg).

(** [try: body / except Exception as e: handler e]. *)
Definition try_except {A} (body : M A) (handler : exn -> M A) : M A :=
  fun w =>
    match body w with
    | (Raises e, w') => handler e w'
    | r => r
    end.

(** What the calls made by [__init__] answer: each constructor returns a
    source or raises, and [.get()] on each of the two environment
    variables gives the value that is set, or [None]. *)
Record Externals := mkExternals {
  CPUMonitor : result S;
  DiskMonitor : result S;
  NetworkMonitor : result S;
  GPUMonitor : result S;
  MLFLOW_SYSTEM_METRICS_SAMPLING_INTERVAL : option float;
  MLFLOW_SYSTEM_METRICS_SAMPLES_BEFORE_LOGGING : option Z;
}.

(** An argument left out takes its default, 10 or 1. *)
Definition __init__ (ext : Externals) (run_id : string)
    (sampling_interval : option number) (samples_before_logging : option Z)
  : result World :=
  let sampling_interval := default (Int 10) sampling_interval in
  let samples_before_logging := default 1 samples_before_logging in
  cpu ← CPUMonitor ext;
  disk ← DiskMonitor ext;
  network ← NetworkMonitor ext;
  let monitors := [cpu; disk; network] in
  let '(monitors, logged) :=
    match GPUMonitor ext with
    | Ok gpu_monitor => (monitors ++ [gpu_monitor], [])
    | Raise e => (monitors, [Log WARNING (SkipGpu e)])
    end in
  let sampling_interval :=
    or_else truthy (Float <$> MLFLOW_SYSTEM_METRICS_SAMPLING_INTERVAL ext)
      sampling_interval in
  let samples_before_logging :=
    or_else (fun z => negb (z =? 0))
      (MLFLOW_SYSTEM_METRICS_SAMPLES_BEFORE_LOGGING ext)
      samples_before_logging in
  mret (mkWorld
          (mkMonitor monitors sampling_interval samples_before_logging
             run_id false None 0)
          None logged 0%nat 0%nat).

Section with_env.

Variable env : Env.

(** [get_run(run_id).info.status]. *)
Definition get_run (run_id : string) : M string := fun w =>
  let w' := count_get_run (add_events [GetRun run_id] w) in
  match env_get_run env (get_run_calls w) with
  | Ok status => (Returns status, w')
  | Raise e => (Raises e, w')
  end.

(** [self.mlflow_logger.record_metrics(metrics, step)]. *)
Definition record_metrics (metrics : gmap string V) (step : Z) : M unit :=
  fun w =>
    let failure := env_record_metrics env (record_metrics_calls w) in
    let w' := count_record_metrics
                (add_events [RecordMetrics metrics step failure] w) in
    match failure with
    | None => (Returns tt, w')
    | Some e => (Raises e, w')
    end.

(** [self._shutdown_event.is_set()], [.set()] and [.wait(timeout)].  The
    wait returns whether the event is set: at once when it is, and when
    the timeout has passed otherwise.  This is the wait for a timeout
    that it takes ([wait_accepts]); with a timeout beyond [TIMEOUT_MAX]
    and the event not set, the method raises [OverflowError] instead,
    which is not modelled: what is stated of a thread that waits while
    the event is not set holds for sampling intervals that the wait
    takes. *)
Definition is_set : M bool := gets _shutdown_event.
Definition set : M unit := modify (set_shutdown_event true).
Definition wait (timeout : number) : M bool :=
  emit (EventWait timeout) >> is_set.

(** A body carried out on [monitor]: each access is made by the source
    and is recorded as it is made.  The result is the source after it,
    the accesses made, in order, and what the body gives. *)
Fixpoint on_source {A} (body : access V A) (monitor : S)
  : S * list source_op * A :=
  match body with
  | Done a => (monitor, [], a)
  | Call_collect_metrics rest =>
      let '(monitor', ops, a) :=
        on_source rest (source.collect_metrics monitor) in
      (monitor', Collect :: ops, a)
  | Read__metrics rest =>
      let '(monitor', ops, a) :=
        on_source (rest (source._metrics monitor)) monitor in
      (monitor', ReadMetrics :: ops, a)
  | Call_aggregate_metrics rest =>
      let '(monitor', ops, a) :=
        on_source (rest (source.aggregate_metrics monitor)) monitor in
      (monitor', Aggregate :: ops, a)
  | Call_clear_metrics rest =>
      let '(monitor', ops, a) :=
        on_source rest (source.clear_metrics monitor) in
      (monitor', Clear :: ops, a)
  end.

(** [for monitor in self.monitors: body], from the [i]-th source on; [acc]
    is what the loop has accumulated so far. *)
Fixpoint for_monitors {A} (body : A -> access V A) (i : nat) (ms : list S)
    (acc : A) : list S * list event * A :=
  match ms with
  | [] => ([], [], acc)
  | monitor :: rest =>
      let '(monitor', ops, acc') := on_source (body acc) monitor in
      let '(rest', evs, out) := for_monitors body (Datatypes.S i) rest acc' in
      (monitor' :: rest', (SourceCall i <$> ops) ++ evs, out)
  end.

Definition for_monitor_in_self_monitors {A} (body : A -> access V A)
    (init : A) : M A := fun w =>
  let '(ms, evs, out) := for_monitors body 0 (monitors (self w)) init in
  (Returns out, add_events evs (set_self (set_monitors ms (self w)) w)).

(** [metrics.update(d)]: the entries of [d] replace those of [metrics]. *)
Definition update {A} (metrics d : gmap string A) : gmap string A :=
  d ∪ metrics.

Definition collect_metrics : M (gmap string (list V)) :=
  for_monitor_in_self_monitors
    (fun metrics =>
       Call_collect_metrics
         (Read__metrics (fun _metrics => Done (update metrics _metrics))))
    ∅.

Definition aggregate_metrics : M (gmap string V) :=
  for_monitor_in_self_monitors
    (fun metrics =>
       Call_aggregate_metrics
         (fun aggregated => Done (update metrics aggregated)))
    ∅.

Definition publish_metrics (metrics : gmap string V) : M unit :=
  let* step := gets _logging_step in
  record_metrics metrics step >>
  modify (set_logging_step (step + 1)) >>
  for_monitor_in_self_monitors
    (fun _ : unit => Call_clear_metrics (Done tt)) tt.

(** One stretch of [monitor], from one reading of the shutdown event to
    the next: the test of the [while] loop, one iteration of the [for]
    loop, or the aggregation and publication after it. *)
Definition monitor_step (p : pc) : M pc :=
  match p with
  | AtWhile =>
      let* stop := is_set in
      if stop then ret Exited
      else
        let* n := gets samples_before_logging in
        ret (InFor (Z.to_nat n))
  | InFor 0 => ret AfterFor
  | InFor (Datatypes.S remaining) =>
      collect_metrics >>
      let* interval := gets sampling_interval in
      wait interval >>
      let* run :=
        try_except
          (let* run_id := gets _run_id in
           let* status := get_run run_id in
           ret (Some status))
          (fun e => log WARNING (FailedToGetRun e) >> ret None) in
      match run with
      | None => ret Exited
      | Some status =>
          let* stop := (if bool_decide (status ≠ "RUNNING") then ret true
                        else is_set) in
          if stop then ret Exited else ret (InFor remaining)
      end
  | AfterFor =>
      let* metrics := aggregate_metrics in
      try_except
        (publish_metrics metrics >> ret AtWhile)
        (fun e => log WARNING (FailedToLog e) >> ret Exited)
  | Exited => ret Exited
  end.

(** The background thread runs one stretch; an exception that [monitor]
    lets through ends the thread and reaches no caller. *)
Definition tick : M unit := fun w =>
  match thread w with
  | None | Some Exited => (Returns tt, w)
  | Some p =>
      match monitor_step p w with
      | (Returns p', w') => (Returns tt, set_thread (Some p') w')
      | (Raises e, w') =>
          (Returns tt, set_thread (Some Exited) (add_events [Uncaught e] w'))
      | (Waits, w') => (Waits, w')
      end
  end.

(** The thread runs until [monitor] has returned. *)
Fixpoint run_thread (fuel : nat) : M unit := fun w =>
  match thread w with
  | None | Some Exited => (Returns tt, w)
  | Some _ =>
      match fuel with
      | O => (Waits, w)
      | Datatypes.S fuel => (tick >> run_thread fuel) w
      end
  end.

(** [self._process.start()]: the thread begins at the top of [monitor],
    unless it cannot be started. *)
Definition thread_start (failure : option exn) : M unit := fun w =>
  let w' := add_events [ThreadStart failure] w in
  match failure with
  | Some e => (Raises e, w')
  | None => (Returns tt, set_thread (Some AtWhile) w')
  end.

(** [self._process.join()]: waits until the thread has ended; raises when
    the thread was never started. *)
Definition join (failure : option exn) (fuel : nat) : M unit := fun w =>
  let w' := add_events [ThreadJoin failure] w in
  match failure with
  | Some e => (Raises e, w')
  | None =>
      match thread w' with
      | None =>
          (Raises (RuntimeError "cannot join thread before it is started"),
           w')
      | Some _ => run_thread fuel w'
      end
  end.

Definition start (spawn_failure : option exn) : M unit :=
  try_except
    (modify (set_process (Some (mkThread true "SystemMetricsMonitor"))) >>
     thread_start spawn_failure >>
     log INFO StartedMonitoring)
    (fun e =>
       log WARNING (FailedToStart e) >>
       modify (set_process None)).

Definition finish (join_failure : option exn) (fuel : nat) : M unit :=
  let* process := gets _process in
  match process with
  | None => ret tt
  | Some _ =>
      log INFO Stopping >>
      set >>
      try_except
        (join join_failure fuel >> log INFO Terminated)
        (fun e => log ERROR (ErrorTerminating e)) >>
      modify (set_process None)
  end.

(** The calls made on a monitor during its life, and the stretches of
    its background thread between them.  The thread and the callers of
    [start] and [finish] share the shutdown event only, which the thread
    reads at most once in each stretch; so a life is a sequence of calls
    and stretches.  The three other methods are those that the thread
    itself calls, here called between two stretches. *)
Inductive call :=
| Start (spawn_failure : option exn)
| Tick
| CollectMetrics
| AggregateMetrics
| PublishMetrics (metrics : gmap string V)
| Finish (join_failure : option exn) (fuel : nat).

Definition perform (c : call) (w : World) : World :=
  match c with
  | Start spawn_failure => (start spawn_failure w).2
  | Tick => (tick w).2
  | CollectMetrics => (collect_metrics w).2
  | AggregateMetrics => (aggregate_metrics w).2
  | PublishMetrics metrics => (publish_metrics metrics w).2
  | Finish join_failure fuel => (finish join_failure fuel w).2
  end.

Definition lifetime (calls : list call) (w : World) : World :=
  fold_left (fun w c => perform c w) calls w.

End with_env.

(** *** Reading a trace *)

(** The steps of the publications that the logger accepted, and the
    batches and steps of all that were attempted. *)
Definition published (tr : list event) : list (gmap string V * Z) :=
  omap (fun e => match e with
                 | RecordMetrics metrics step None => Some (metrics, step)
                 | _ => None
                 end) tr.

Definition attempted (tr : list event) : list (gmap string V * Z) :=
  omap (fun e => match e with
                 | RecordMetrics metrics step _ => Some (metrics, step)
                 | _ => None
                 end) tr.

(** The timeouts of the waits. *)
Definition waits (tr : list event) : list number :=
  omap (fun e => match e with
                 | EventWait timeout => Some timeout
                 | _ => None
                 end) tr.

Definition source_calls (tr : list event) : list (nat * source_op) :=
  omap (fun e => match e with
                 | SourceCall i op => Some (i, op)
                 | _ => None
                 end) tr.

(** What a list of operations on the sources does to them, when each is
    carried out by the source itself: the two readings change nothing. *)
Definition by_source (op : source_op) (s : S) : S :=
  match op with
  | Collect => source.collect_metrics s
  | Clear => source.clear_metrics s
  | ReadMetrics | Aggregate => s
  end.

Definition replay (calls : list (nat * source_op)) (ms : list S) : list S :=
  fold_left (fun ms c => alter (by_source c.2) c.1 ms) calls ms.


(** *** What the statements below speak of *)

(** The events of a loop that does [ops] to each of [n] sources from the
    [i]-th on. *)
Definition loop_events (ops : list source_op) (i n : nat) : list event :=
  mjoin ((fun j => SourceCall j <$> ops) <$> seq i n).

(** What [ops], done in order by the source itself, make of a source. *)
Definition by_source_all (ops : list source_op) (s : S) : S :=
  fold_left (fun s op => by_source op s) ops s.

(** The calls on the sources that the methods of the monitor make: a
    source's [collect_metrics] with, right after it, a reading of the
    [_metrics] of the same source; its [aggregate_metrics]; and its
    [clear_metrics]. *)
Inductive as_the_methods_do : list (nat * source_op) -> Prop :=
| no_call : as_the_methods_do []
| collect_and_read i calls :
    as_the_methods_do calls ->
    as_the_methods_do ((i, Collect) :: (i, ReadMetrics) :: calls)
| aggregate i calls :
    as_the_methods_do calls -> as_the_methods_do ((i, Aggregate) :: calls)
| clear i calls :
    as_the_methods_do calls -> as_the_methods_do ((i, Clear) :: calls).

(** [steps] are [from], [from + 1], ... *)
Definition consecutive_from (from : Z) (steps : list Z) : Prop :=
  steps = (fun i => from + Z.of_nat i) <$> seq 0 (length steps).

(** What every call and every stretch of the thread keeps: the
    configuration; the sources are called as the methods of the monitor
    do, and change only as their own methods change them; the logger
    accepts the steps in order, and the step counter counts what it has
    accepted. *)
Definition evolves (w w' : World) : Prop :=
  sampling_interval (self w') = sampling_interval (self w) /\
  samples_before_logging (self w') = samples_before_logging (self w) /\
  _run_id (self w') = _run_id (self w) /\
  (_shutdown_event (self w) = true -> _shutdown_event (self w') = true) /\
  exists evs,
    trace w' = trace w ++ evs /\
    as_the_methods_do (source_calls evs) /\
    monitors (self w') = replay (source_calls evs) (monitors (self w)) /\
    consecutive_from (_logging_step (self w)) (published evs).*2 /\
    _logging_step (self w') =
      _logging_step (self w) + Z.of_nat (length (published evs)).

(** A computation under which the world evolves, however it ends. *)
Definition evolving {A} (m : M A) : Prop := forall w : World, evolves w (m w).2.

(** Events that are neither a call on a source nor a call of the
    logger. *)
Definition quiet (e : event) : bool :=
  match e with
  | SourceCall _ _ | RecordMetrics _ _ _ => false
  | _ => true
  end.

(** The batch that [aggregate_metrics] builds. *)
Definition aggregated (w : World) : gmap string V :=
  fold_left (fun a s => update a (source.aggregate_metrics s))
    (monitors (self w)) ∅.

Definition collected (w : World) : list event :=
  loop_events [Collect; ReadMetrics] 0 (length (monitors (self w))).

(** The world after one iteration of the [for] loop that leaves the
    thread at [p], having logged [logged]. *)
Definition after_sample (p : pc) (logged : list event) (w : World) : World :=
  mkWorld
    (set_monitors (source.collect_metrics <$> monitors (self w)) (self w))
    (Some p)
    (trace w ++ collected w ++
       [EventWait (sampling_interval (self w)); GetRun (_run_id (self w))] ++
       logged)
    (Datatypes.S (get_run_calls w)) (record_metrics_calls w).

(** The world after a publication that the logger accepted, and after one
    that it refused with [e]. *)
Definition after_publish (w : World) : World :=
  mkWorld
    (set_monitors (source.clear_metrics <$> monitors (self w))
       (set_logging_step (_logging_step (self w) + 1) (self w)))
    (Some AtWhile)
    (trace w ++ loop_events [Aggregate] 0 (length (monitors (self w))) ++
       [RecordMetrics (aggregated w) (_logging_step (self w)) None] ++
       loop_events [Clear] 0 (length (monitors (self w))))
    (get_run_calls w) (Datatypes.S (record_metrics_calls w)).

Definition after_refusal (e : exn) (w : World) : World :=
  mkWorld (self w) (Some Exited)
    (trace w ++ loop_events [Aggregate] 0 (length (monitors (self w))) ++
       [RecordMetrics (aggregated w) (_logging_step (self w)) (Some e);
        Log WARNING (FailedToLog e)])
    (get_run_calls w) (Datatypes.S (record_metrics_calls w)).

(** The world in which [join] is called. *)
Definition joining (join_failure : option exn) (w : World) : World :=
  add_events [Log INFO Stopping; ThreadJoin join_failure]
    (set_self (set_shutdown_event true (self w)) w).

End monitor.

Section mock.

Context {V : Type}.
Variable reduce : list V -> V.

(** Modelled from the spec: the mock source of the scenario under
    "Testable properties", which is not among the sources.  It has one
    metric, [mock_name], a constant that each [collect] contributes,
    [mock_value], and the samples it holds. *)
Record MockSource := mkMock {
  mock_name : string;
  mock_value : V;
  mock_samples : list V;
}.

(** Modelled from the spec: the operations of the mock source.  Each
    [collect] adds the constant to the samples held, [reduce] folds the
    samples held into the one value reported under the name, and [reset]
    drops them. *)
Definition mock_source : source.Source MockSource V := {|
  source.collect_metrics s :=
    mkMock (mock_name s) (mock_value s) (mock_samples s ++ [mock_value s]);
  source._metrics s := {[ mock_name s := mock_samples s ]};
  source.aggregate_metrics s := {[ mock_name s := reduce (mock_samples s) ]};
  source.clear_metrics s := mkMock (mock_name s) (mock_value s) [];
|}.

End mock.

End system_metrics_monitor.

(** ** Example inputs *)

Module examples.

Import system_metrics_monitor.

(** A reduction for the mock sources: the sum of the samples. *)
Definition total (l : list Z) : Z := foldr Z.add 0 l.

Definition cpu : MockSource := mkMock "cpu" 1 [].
Definition disk : MockSource := mkMock "disk" 2 [].
Definition network : MockSource := mkMock "network" 3 [].
Definition gpu : MockSource := mkMock "gpu" 4 [].

(** Four mock sources and no environment variable set; the same with a
    GPU that cannot be monitored; the same with both variables set to
    zero. *)
Definition four_mocks : Externals :=
  mkExternals (Ok cpu) (Ok disk) (Ok network) (Ok gpu) None None.
Definition no_gpu : Externals :=
  mkExternals (Ok cpu) (Ok disk) (Ok network)
    (Raise (Exception "no GPU")) None None.
Definition zero_overrides : Externals :=
  mkExternals (Ok cpu) (Ok disk) (Ok network) (Ok gpu)
    (Some (S754_zero false)) (Some 0).

(** A run that is RUNNING at the first three queries and finished from
    the fourth on, with a logger that accepts everything; a run whose
    status cannot be had; and a logger that refuses everything. *)
Definition three_then_finished : Env :=
  mkEnv (fun n => if (n <? 3)%nat then Ok "RUNNING" else Ok "FINISHED")
    (fun _ => None).
Definition unreachable : Env :=
  mkEnv (fun _ => Raise (Exception "connection refused")) (fun _ => None).
Definition refusing : Env :=
  mkEnv (fun _ => Ok "RUNNING") (fun _ => Some (Exception "run deleted")).

Definition monitor_thread : Thread := mkThread true "SystemMetricsMonitor".

(** The monitor of the scenario, constructed and started. *)
Definition started : @World MockSource Z :=
  mkWorld
    (mkMonitor [cpu; disk; network; gpu] (Int 1) 3 "run" false
       (Some monitor_thread) 0)
    (Some AtWhile) [ThreadStart None; Log INFO StartedMonitoring] 0%nat 0%nat.

(** A monitor whose thread is in the [for] loop, and one whose thread
    has left it with one sample of each source. *)
Definition sampling : @World MockSource Z :=
  mkWorld
    (mkMonitor [cpu; disk; network; gpu] (Int 10) 1 "run" false
       (Some monitor_thread) 0)
    (Some (InFor 1)) [ThreadStart None; Log INFO StartedMonitoring]
    0%nat 0%nat.
Definition publishing : @World MockSource Z :=
  mkWorld
    (mkMonitor [mkMock "cpu" 1 [1]; mkMock "disk" 2 [2]] (Int 10) 1 "run"
       false (Some monitor_thread) 0)
    (Some AfterFor) [ThreadStart None; Log INFO StartedMonitoring]
    1%nat 0%nat.

(** The monitor of the scenario as constructed, and a life of it: it is
    started, its thread runs, and it is finished. *)
Definition constructed : @World MockSource Z :=
  mkWorld (mkMonitor [cpu; disk; network; gpu] (Int 1) 3 "run" false None 0)
    None [] 0%nat 0%nat.
Definition a_life : list (@call Z) :=
  [Start None; Tick; Tick; Tick; Tick; Tick; Tick; Tick; Tick; Finish None 3].


(** A run that is always RUNNING with a logger that accepts everything,
    and constructors of which the first raises. *)
Definition always_running : Env :=
  mkEnv (fun _ => Ok "RUNNING") (fun _ => None).
Definition no_cpu : Externals :=
  mkExternals (Raise (Exception "no psutil")) (Ok disk) (Ok network) (Ok gpu)
    None None.

(** A monitor that was finished; one that is being stopped while its
    thread is at the test of the loop; one that is started with no
    sample to take before logging; and one with two sources that report
    under one name. *)
Definition finished : @World MockSource Z :=
  mkWorld
    (mkMonitor [cpu; disk; network; gpu] (Int 1) 3 "run" true None 0)
    (Some Exited)
    [ThreadStart None; Log INFO StartedMonitoring; Log INFO Stopping;
     ThreadJoin None; Log INFO Terminated] 0%nat 0%nat.
Definition stopping : @World MockSource Z :=
  mkWorld
    (mkMonitor [cpu; disk; network; gpu] (Int 1) 3 "run" true
       (Some monitor_thread) 0)
    (Some AtWhile) [ThreadStart None; Log INFO StartedMonitoring] 0%nat 0%nat.
Definition started_without_samples : @World MockSource Z :=
  mkWorld
    (mkMonitor [cpu; disk; network; gpu] (Int 1) 0 "run" false
       (Some monitor_thread) 0)
    (Some AtWhile) [ThreadStart None; Log INFO StartedMonitoring] 0%nat 0%nat.
Definition same_name : @World MockSource Z :=
  mkWorld
    (mkMonitor [mkMock "cpu" 1 [1]; mkMock "cpu" 2 [2; 2]] (Int 10) 1 "run"
       false None 0)
    None [] 0%nat 0%nat.

End examples.

(** * Folds that fill a dictionary *)

Section folds.

(** Inserting the entries of a list from left to right: a later entry
    replaces an earlier one with the same key. *)
Lemma fold_left_insert {A B} (key : A -> string) (val : A -> B)
    (l : list A) (acc : gmap string B) :
  fold_left (fun acc x => <[key x := val x]> acc) l acc =
  list_to_map ((fun x => (key x, val x)) <$> reverse l) ∪ acc.
Proof.
  revert acc. induction l as [|x l IH]; intros acc; simpl.
  - by rewrite (left_id_L ∅ (∪)).
  - rewrite IH, reverse_cons, fmap_app, list_to_map_app. simpl.
    rewrite <- (assoc_L (∪)). f_equal.
    rewrite insert_empty, <- insert_union_singleton_l. done.
Qed.

Lemma fold_left_insert_NoDup {A B} (key : A -> string) (val : A -> B)
    (l : list A) :
  NoDup (key <$> l) ->
  fold_left (fun acc x => <[key x := val x]> acc) l (∅ : gmap string B) =
  list_to_map ((fun x => (key x, val x)) <$> l).
Proof.
  intros Hnd. rewrite fold_left_insert, (right_id_L ∅ (∪)).
  rewrite fmap_reverse. apply list_to_map_proper.
  - rewrite <- fmap_reverse, <- list_fmap_compose, reverse_Permutation.
    exact Hnd.
  - apply reverse_Permutation.
Qed.

Lemma fold_left_pointwise {A B} (f g : A -> B -> A) (l : list B) (a : A) :
  (forall a x, f a x = g a x) -> fold_left f l a = fold_left g l a.
Proof.
  intros Hfg. revert a. induction l as [|x l IH]; intros a; [done|].
  simpl. by rewrite Hfg, IH.
Qed.

End folds.

(** * Properties of [Metric] *)

Section metric_properties.

Import metric.

Lemma getattr_setattr (self : Metric) (name name' : string) (v : py.value) :
  getattr (setattr self name v) name' =
  if decide (name = name') then Ok v else getattr self name'.
Proof.
  unfold getattr, setattr; simpl.
  rewrite lookup_insert. by case_decide.
Qed.

Lemma getattr_new (name : string) :
  getattr (mkMetric ∅) name = Raise (AttributeError name).
Proof. unfold getattr; simpl. by rewrite lookup_empty. Qed.

(** IEEE equality is reflexive on every float but NaN. *)
Lemma SFeqb_refl (f : float) : f <> S754_nan -> SFeqb f f = true.
Proof.
  destruct f as [s|s| |s m e]; try done; intros _.
  - unfold SFeqb; simpl. by destruct s.
  - unfold SFeqb; simpl.
    rewrite Z.compare_refl, Pos.compare_cont_refl. by destruct s.
Qed.

Lemma dict_eq_refl (a : gmap string py.value) :
  (forall k v, a !! k = Some v -> py_eq v v = true) -> dict_eq a a = true.
Proof.
  intros Hrefl. unfold dict_eq.
  rewrite Nat.eqb_refl; simpl.
  apply forallb_forall. intros [k v] Hin.
  apply list_elem_of_In, elem_of_map_to_list in Hin. simpl.
  rewrite Hin. eauto.
Qed.

Lemma dict_eq_differs (a b : gmap string py.value) (k : string)
    (v v' : py.value) :
  a !! k = Some v -> b !! k = Some v' -> py_eq v v' = false ->
  dict_eq a b = false.
Proof.
  intros Ha Hb Hne. unfold dict_eq.
  apply andb_false_intro2.
  destruct (forallb _ _) eqn:Hall; [|done].
  rewrite forallb_forall in Hall.
  specialize (Hall (k, v)). simpl in Hall. rewrite Hb, Hne in Hall.
  symmetry. apply Hall, list_elem_of_In, elem_of_map_to_list, Ha.
Qed.

Lemma pairs_of_dimensions (l : list (string * string)) :
  (fun d => (dim_key d, dim_value d)) <$>
    ((fun kv => mkDimension kv.1 kv.2) <$> l) = l.
Proof.
  induction l as [|[k v] l IH]; [done|].
  rewrite !fmap_cons, IH. done.
Qed.

Lemma dict_of_dimensions_items (d : gmap string string) :
  dict_of_dimensions ((fun kv => mkDimension kv.1 kv.2) <$> map_to_list d) = d.
Proof.
  unfold dict_of_dimensions.
  rewrite (fold_left_insert dim_key dim_value), (right_id_L ∅ (∪)).
  rewrite <- fmap_reverse, pairs_of_dimensions.
  symmetry. apply list_to_map_flip. symmetry. apply reverse_Permutation.
Qed.

Lemma tags_or_empty_idemp (tags : option (gmap string string)) :
  tags_or_empty (Some (tags_or_empty tags)) = tags_or_empty tags.
Proof.
  destruct tags as [d|]; simpl; [|done].
  destruct (bool_decide (d = ∅)) eqn:Hd; simpl; [done|].
  by rewrite Hd.
Qed.

Lemma to_proto_of_constructed key value timestamp step tags
    (timestamp_in_range : int64_range timestamp)
    (step_in_range : int64_range step) :
  to_proto (__init__ key value timestamp step tags) =
  Ok (mkProtoMetric key value (dexist timestamp timestamp_in_range)
        (dexist step step_in_range)
        ((fun kv => mkDimension kv.1 kv.2)
           <$> map_to_list (tags_or_empty tags))).
Proof.
  unfold to_proto, metric.tags, metric.key, metric.value, metric.timestamp,
    metric.step, __init__.
  repeat (rewrite !getattr_setattr; simpl).
  destruct (decide (int64_range timestamp)); [|done].
  destruct (decide (int64_range step)); [|done].
  simpl. do 2 f_equal; by apply dsig_eq.
Qed.

(** With a timestamp and a step that the message can hold, the conversion
    to a message succeeds, and the conversion back builds the very same
    attributes. *)
Lemma from_proto_to_proto_attributes key value timestamp step tags :
  int64_range timestamp -> int64_range step ->
  exists proto,
    to_proto (__init__ key value timestamp step tags) = Ok proto /\
    from_proto proto = __init__ key value timestamp step tags.
Proof.
  intros Hts Hs. eexists. split.
  - apply (to_proto_of_constructed _ _ _ _ _ Hts Hs).
  - unfold from_proto; simpl.
    rewrite dict_of_dimensions_items.
    unfold __init__. by rewrite tags_or_empty_idemp.
Qed.

(** C9: for every [Metric] built by [__init__], [__hash__] raises
    [AttributeError]: it reads [self._dimensions], an attribute that
    [__init__] never sets (the tags are stored under [_tags]). *)
Theorem hash_raises_AttributeError hash key value timestamp step tags :
  __hash__ hash (__init__ key value timestamp step tags)
  = Raise (AttributeError "_dimensions").
Proof.
  unfold __hash__, __init__.
  rewrite !getattr_setattr; simpl.
  by rewrite getattr_new.
Qed.

(** C10, as stated, fails in two ways.  For a metric whose value is NaN:
    the metric built back from the message has the same attributes, and
    NaN is not equal to NaN.  And for a metric whose timestamp is an
    integer that the [int64] field of the message cannot hold, here
    2^63: [to_proto] raises [ValueError], so there is no message to read
    back. *)
Lemma round_trip_fails_for_nan_and_beyond_int64 :
  (exists proto,
     to_proto (__init__ "r2" S754_nan 1999 0 None) = Ok proto /\
     __eq__ (from_proto proto)
       (MetricObject (__init__ "r2" S754_nan 1999 0 None)) = false) /\
  to_proto (__init__ "r2" (S754_finite false 15 (-4)) (2 ^ 63) 0 None)
  = Raise (ValueError "Value out of range").
Proof.
  split.
  - destruct (from_proto_to_proto_attributes "r2" S754_nan 1999 0 None)
      as (proto & Hto & Hfrom); [by unfold int64_range..|].
    exists proto. split; [done|].
    rewrite Hfrom. unfold __eq__.
    apply (dict_eq_differs _ _ "_value" (VFloat S754_nan) (VFloat S754_nan));
      done.
  - unfold to_proto, metric.tags, metric.key, metric.value, metric.timestamp,
      metric.step, __init__.
    repeat (rewrite !getattr_setattr; simpl).
    reflexivity.
Qed.

(** C10, amended: for every [Metric] with a string key, a float value
    other than NaN, a timestamp and a step that are integers of the
    signed 64-bit range, and tags that are [None] or a mapping of
    strings, [Metric.from_proto(m.to_proto()) == m]; a [None] or empty
    tags argument is stored as the empty mapping. *)
Theorem from_proto_to_proto_eq key value timestamp step tags :
  value <> S754_nan ->
  int64_range timestamp ->
  int64_range step ->
  exists proto,
    to_proto (__init__ key value timestamp step tags) = Ok proto /\
    __eq__ (from_proto proto)
      (MetricObject (__init__ key value timestamp step tags)) = true.
Proof.
  intros Hnan Hts Hs.
  destruct (from_proto_to_proto_attributes key value timestamp step tags)
    as (proto & Hto & Hfrom); [done..|].
  exists proto. split; [done|].
  rewrite Hfrom. unfold __eq__. apply dict_eq_refl.
  intros k v. unfold __init__, setattr; simpl.
  rewrite !lookup_insert.
  repeat case_decide; try (intros [= <-]; simpl); try done.
  - by apply bool_decide_eq_true_2.
  - by apply Z.eqb_refl.
  - by apply Z.eqb_refl.
  - by apply SFeqb_refl.
  - by apply bool_decide_eq_true_2.
Qed.

Lemma from_proto_to_proto_eq_witness :
  exists proto,
    to_proto (__init__ "r2" (S754_finite false 15 (-4)) 1999 0 None)
      = Ok proto /\
    __eq__ (from_proto proto)
      (MetricObject (__init__ "r2" (S754_finite false 15 (-4)) 1999 0 None))
      = true.
Proof.
  apply from_proto_to_proto_eq; [discriminate|unfold int64_range; lia..].
Defined.

End metric_properties.

(** * Properties of [SystemMetricsMonitor] *)

Import system_metrics_monitor.

Section monitor_properties.

Context {S V : Type} {src : source.Source S V}.

Implicit Types (w : @World S V) (tr evs : list (@event V)) (ms : list S).

(** ** The loops over the sources *)

Lemma loop_events_S ops i n :
  loop_events (V := V) ops i (Datatypes.S n) =
  (SourceCall i <$> ops) ++ loop_events ops (Datatypes.S i) n.
Proof. done. Qed.

(** A loop whose body makes the accesses [ops] to each source, leaving
    it as [f] does and accumulating by [g]. *)
Lemma for_monitors_spec {A} (f : S -> S) (g : S -> A -> A) ops
    (body : A -> access V A) i ms acc :
  (forall a s, on_source (body a) s = (f s, ops, g s a)) ->
  for_monitors body i ms acc =
  (f <$> ms, loop_events ops i (length ms), fold_left (fun a s => g s a) ms acc).
Proof.
  intros Hbody.
  revert i acc. induction ms as [|s ms IH]; intros i acc; [done|].
  rewrite length_cons, loop_events_S. simpl. by rewrite Hbody, IH.
Qed.

(** Whatever the body, it leaves the source as the accesses it made do
    when the source carries them out. *)
Lemma on_source_by_source {A} (body : access V A) s :
  (on_source body s).1.1 = by_source_all (on_source body s).1.2 s.
Proof.
  revert s. induction body as [a|rest IH|rest IH|rest IH|rest IH]; intros s;
    simpl; [done|..].
  - specialize (IH (source.collect_metrics s)).
    by destruct (on_source rest (source.collect_metrics s)) as [[??]?].
  - specialize (IH (source._metrics s) s).
    by destruct (on_source (rest (source._metrics s)) s) as [[??]?].
  - specialize (IH (source.aggregate_metrics s) s).
    by destruct (on_source (rest (source.aggregate_metrics s)) s) as [[??]?].
  - specialize (IH (source.clear_metrics s)).
    by destruct (on_source rest (source.clear_metrics s)) as [[??]?].
Qed.

Lemma source_calls_app tr evs :
  source_calls (tr ++ evs) = source_calls tr ++ source_calls evs.
Proof. apply omap_app. Qed.

Lemma published_app tr evs : published (tr ++ evs) = published tr ++ published evs.
Proof. apply omap_app. Qed.

Lemma attempted_app tr evs : attempted (tr ++ evs) = attempted tr ++ attempted evs.
Proof. apply omap_app. Qed.

Lemma source_calls_of_ops i ops :
  source_calls (V := V) (SourceCall i <$> ops) = (fun op => (i, op)) <$> ops.
Proof. induction ops as [|op ops IH]; [done|]. simpl. f_equal. apply IH. Qed.

Lemma published_of_ops i ops : published (V := V) (SourceCall i <$> ops) = [].
Proof. by induction ops. Qed.

Lemma attempted_of_ops i ops : attempted (V := V) (SourceCall i <$> ops) = [].
Proof. by induction ops. Qed.

Lemma published_loop_events ops i n :
  published (loop_events (V := V) ops i n) = [].
Proof.
  revert i. induction n as [|n IH]; intros i; [done|].
  by rewrite loop_events_S, published_app, published_of_ops, IH.
Qed.

Lemma attempted_loop_events ops i n :
  attempted (loop_events (V := V) ops i n) = [].
Proof.
  revert i. induction n as [|n IH]; intros i; [done|].
  by rewrite loop_events_S, attempted_app, attempted_of_ops, IH.
Qed.

Lemma waits_app tr evs : waits (tr ++ evs) = waits tr ++ waits evs.
Proof. apply omap_app. Qed.

Lemma waits_loop_events ops i n : waits (loop_events (V := V) ops i n) = [].
Proof.
  revert i. induction n as [|n IH]; intros i; [done|].
  rewrite loop_events_S, waits_app, IH, (right_id_L [] (++)).
  clear. by induction ops.
Qed.

Lemma replay_app (c1 c2 : list (nat * source_op)) ms :
  replay (c1 ++ c2) ms = replay c2 (replay c1 ms).
Proof. apply fold_left_app. Qed.

Lemma replay_ops_at (pre : list S) s ms ops :
  replay ((fun op => (length pre, op)) <$> ops) (pre ++ s :: ms) =
  pre ++ by_source_all ops s :: ms.
Proof.
  revert s. induction ops as [|op ops IH]; intros s; [done|].
  simpl. unfold replay in IH.
  rewrite alter_app_r_alt by lia. rewrite Nat.sub_diag. simpl. apply IH.
Qed.

Lemma replay_loop_events ops (pre : list S) ms :
  replay (source_calls (loop_events (V := V) ops (length pre) (length ms)))
    (pre ++ ms) =
  pre ++ (by_source_all ops <$> ms).
Proof.
  revert pre. induction ms as [|s ms IH]; intros pre; [done|].
  rewrite length_cons, loop_events_S.
  rewrite source_calls_app, source_calls_of_ops, replay_app, replay_ops_at.
  replace (pre ++ by_source_all ops s :: ms)
    with ((pre ++ [by_source_all ops s]) ++ ms)
    by (by rewrite <- (assoc_L (++))).
  replace (Datatypes.S (length pre)) with (length (pre ++ [by_source_all ops s]))
    by (rewrite length_app; simpl; lia).
  rewrite IH.
  by rewrite fmap_cons, <- (assoc_L (++)).
Qed.

Lemma replay_loop_events_0 ops ms :
  replay (source_calls (loop_events (V := V) ops 0 (length ms))) ms =
  by_source_all ops <$> ms.
Proof. apply (replay_loop_events ops [] ms). Qed.

(** ** How the world evolves *)

Lemma consecutive_from_nil from : consecutive_from from [].
Proof. done. Qed.

Lemma consecutive_from_app from l1 l2 :
  consecutive_from from l1 ->
  consecutive_from (from + Z.of_nat (length l1)) l2 ->
  consecutive_from from (l1 ++ l2).
Proof.
  unfold consecutive_from. intros H1 H2.
  rewrite length_app, seq_app, fmap_app, <- H1. f_equal.
  rewrite H2 at 1.
  replace (0 + length l1)%nat with (length l1 + 0)%nat by lia.
  rewrite <- (fmap_add_seq (length l1) 0), <- list_fmap_compose.
  apply list_fmap_ext. intros _ i _. simpl. lia.
Qed.

Lemma as_the_methods_do_app (c1 c2 : list (nat * source_op)) :
  as_the_methods_do c1 -> as_the_methods_do c2 -> as_the_methods_do (c1 ++ c2).
Proof. induction 1; intros H2; simpl; try constructor; auto. Qed.

Lemma evolves_refl w : evolves w w.
Proof.
  repeat split; try done. exists []. rewrite (right_id_L [] (++)). simpl.
  repeat split; try done; [constructor | lia].
Qed.

Lemma evolves_trans w1 w2 w3 : evolves w1 w2 -> evolves w2 w3 -> evolves w1 w3.
Proof.
  intros (Hi1 & Hs1 & Hr1 & Hf1 & evs1 & Ht1 & Hd1 & Hm1 & Hc1 & Hl1)
         (Hi2 & Hs2 & Hr2 & Hf2 & evs2 & Ht2 & Hd2 & Hm2 & Hc2 & Hl2).
  repeat split; try congruence; [tauto|].
  exists (evs1 ++ evs2).
  rewrite Ht2, Ht1, (assoc_L (++)), source_calls_app, replay_app, <- Hm1.
  rewrite published_app, fmap_app, length_app.
  repeat split; try done.
  - by apply as_the_methods_do_app.
  - apply consecutive_from_app; [done|].
    rewrite length_fmap, <- Hl1. done.
  - rewrite Hl2, Hl1. lia.
Qed.

Lemma evolving_ret {A} (a : A) : evolving (ret a).
Proof. intros w. apply evolves_refl. Qed.

Lemma evolving_raise {A} e : evolving (raise (A := A) e).
Proof. intros w. apply evolves_refl. Qed.

Lemma evolving_gets {A} (f : SystemMetricsMonitor -> A) : evolving (gets f).
Proof. intros w. apply evolves_refl. Qed.

Lemma evolving_bind {A B} (m : M A) (f : A -> M B) :
  evolving m -> (forall a, evolving (f a)) -> evolving (bind m f).
Proof.
  intros Hm Hf w. unfold bind. specialize (Hm w).
  destruct (m w) as [[a|e|] w']; simpl in *; try done.
  eapply evolves_trans; [done|]. apply Hf.
Qed.

Lemma evolving_try_except {A} (m : M A) (h : exn -> M A) :
  evolving m -> (forall e, evolving (h e)) -> evolving (try_except m h).
Proof.
  intros Hm Hh w. unfold try_except. specialize (Hm w).
  destruct (m w) as [[a|e|] w']; simpl in *; try done.
  eapply evolves_trans; [done|]. apply Hh.
Qed.

Lemma evolves_same w w1 w2 :
  self w2 = self w1 -> trace w2 = trace w1 -> evolves w w1 -> evolves w w2.
Proof. unfold evolves. intros -> ->. done. Qed.

Lemma evolves_quiet w e : quiet e = true -> evolves w (add_events [e] w).
Proof.
  intros Hq. repeat split; try done. exists [e]. simpl.
  destruct e; try done; simpl; repeat split; try done;
    (constructor || lia).
Qed.

Lemma evolving_emit e : quiet e = true -> evolving (emit e).
Proof. intros Hq w. by apply evolves_quiet. Qed.

Lemma evolving_log lvl msg : evolving (log lvl msg).
Proof. by apply evolving_emit. Qed.

Lemma evolves_set_self w (m : SystemMetricsMonitor) :
  sampling_interval m = sampling_interval (self w) ->
  samples_before_logging m = samples_before_logging (self w) ->
  _run_id m = _run_id (self w) ->
  (_shutdown_event (self w) = true -> _shutdown_event m = true) ->
  monitors m = monitors (self w) ->
  _logging_step m = _logging_step (self w) ->
  evolves w (set_self m w).
Proof.
  intros. repeat split; try done. exists []. simpl.
  rewrite (right_id_L [] (++)). repeat split; try done; [constructor | lia].
Qed.

Lemma evolving_set_process p : evolving (modify (set_process p)).
Proof. intros w. by apply evolves_set_self. Qed.

(** ** Construction *)

Lemma init_world ext run_id si sbl w :
  __init__ ext run_id si sbl = Ok w ->
  _logging_step (self w) = 0 /\ _process (self w) = None /\
  _shutdown_event (self w) = false /\ _run_id (self w) = run_id /\
  thread w = None /\ published (trace w) = [] /\ attempted (trace w) = [] /\
  source_calls (trace w) = [] /\
  get_run_calls w = 0%nat /\ record_metrics_calls w = 0%nat.
Proof.
  unfold __init__.
  destruct (CPUMonitor ext), (DiskMonitor ext), (NetworkMonitor ext),
    (GPUMonitor ext); simpl; intros [= <-]; done.
Qed.

Section with_env.

Variable env : Env.

Lemma evolving_set : evolving set.
Proof. intros w. by apply evolves_set_self. Qed.

Lemma evolving_is_set : evolving is_set.
Proof. apply evolving_gets. Qed.

Lemma evolving_wait timeout : evolving (wait timeout).
Proof.
  apply evolving_bind; [by apply evolving_emit|]. intros _. apply evolving_is_set.
Qed.

Lemma evolving_get_run run_id : evolving (get_run env run_id).
Proof.
  intros w. unfold get_run.
  destruct (env_get_run env (get_run_calls w)); simpl;
    by apply (evolves_same _ (add_events [GetRun run_id] w)), evolves_quiet.
Qed.

Lemma as_the_methods_do_loop ops i n :
  (forall j, as_the_methods_do ((fun op => (j, op)) <$> ops)) ->
  as_the_methods_do (source_calls (loop_events (V := V) ops i n)).
Proof.
  intros Hops. revert i. induction n as [|n IH]; intros i; [constructor|].
  rewrite loop_events_S, source_calls_app, source_calls_of_ops.
  by apply as_the_methods_do_app.
Qed.

Lemma evolving_for_monitors {A} (f : S -> S) (g : S -> A -> A) ops
    (body : A -> access V A) init :
  (forall a s, on_source (body a) s = (f s, ops, g s a)) ->
  (forall j, as_the_methods_do ((fun op => (j, op)) <$> ops)) ->
  evolving (for_monitor_in_self_monitors body init).
Proof.
  intros Hbody Hops w. unfold for_monitor_in_self_monitors.
  rewrite (for_monitors_spec f g ops) by done. simpl.
  repeat split; try done.
  exists (loop_events ops 0 (length (monitors (self w)))). simpl.
  rewrite replay_loop_events_0, published_loop_events. simpl.
  repeat split; try done; [by apply as_the_methods_do_loop| |lia].
  apply list_fmap_ext. intros _ s _.
  pose proof (on_source_by_source (body init) s) as Hs.
  by rewrite Hbody in Hs.
Qed.

Lemma evolving_collect_metrics : evolving collect_metrics.
Proof.
  apply (evolving_for_monitors source.collect_metrics
           (fun s a => update a (source._metrics (source.collect_metrics s)))
           [Collect; ReadMetrics]); [done|].
  intros j. repeat constructor.
Qed.

Lemma evolving_aggregate_metrics : evolving aggregate_metrics.
Proof.
  apply (evolving_for_monitors id
           (fun s a => update a (source.aggregate_metrics s)) [Aggregate]);
    [done|].
  intros j. repeat constructor.
Qed.

Lemma evolving_clear_metrics :
  evolving (for_monitor_in_self_monitors
              (fun _ : unit => Call_clear_metrics (V := V) (Done tt)) tt).
Proof.
  apply (evolving_for_monitors source.clear_metrics (fun _ _ => tt) [Clear]);
    [done|].
  intros j. repeat constructor.
Qed.

(** The one place where the logger is called and the step counted. *)
Lemma evolving_publish_metrics metrics : evolving (publish_metrics env metrics).
Proof.
  intros w. unfold publish_metrics, bind at 1, gets. simpl.
  unfold bind at 1, record_metrics.
  destruct (env_record_metrics env (record_metrics_calls w)) as [e|] eqn:He;
    simpl.
  - repeat split; try done.
    exists [RecordMetrics metrics (_logging_step (self w)) (Some e)].
    simpl. repeat split; try done; [constructor | lia].
  - unfold bind, modify; simpl.
    eapply evolves_trans; [|apply evolving_clear_metrics].
    repeat split; try done.
    exists [RecordMetrics metrics (_logging_step (self w)) None].
    simpl. repeat split; try done; [constructor|].
    unfold consecutive_from; simpl. f_equal. lia.
Qed.

Lemma evolving_monitor_step p : evolving (monitor_step env p).
Proof.
  destruct p as [|[|remaining]| |]; simpl.
  - apply evolving_bind; [apply evolving_is_set|]. intros [|].
    + apply evolving_ret.
    + apply evolving_bind; [apply evolving_gets|]. intros n. apply evolving_ret.
  - apply evolving_ret.
  - apply evolving_bind; [apply evolving_collect_metrics|]. intros _.
    apply evolving_bind; [apply evolving_gets|]. intros interval.
    apply evolving_bind; [apply evolving_wait|]. intros _.
    apply evolving_bind.
    + apply evolving_try_except.
      * apply evolving_bind; [apply evolving_gets|]. intros run_id.
        apply evolving_bind; [apply evolving_get_run|]. intros status.
        apply evolving_ret.
      * intros e. apply evolving_bind; [apply evolving_log|]. intros _.
        apply evolving_ret.
    + intros [status|]; [|apply evolving_ret].
      apply evolving_bind.
      * case_bool_decide; [apply evolving_ret | apply evolving_is_set].
      * intros [|]; apply evolving_ret.
  - apply evolving_bind; [apply evolving_aggregate_metrics|]. intros metrics.
    apply evolving_try_except.
    + apply evolving_bind; [apply evolving_publish_metrics|]. intros _.
      apply evolving_ret.
    + intros e. apply evolving_bind; [apply evolving_log|]. intros _.
      apply evolving_ret.
  - apply evolving_ret.
Qed.

Lemma evolving_tick : evolving (tick env).
Proof.
  intros w. unfold tick.
  destruct (thread w) as [p|]; [|apply evolves_refl].
  pose proof (evolving_monitor_step p w) as Hstep.
  destruct p; try apply evolves_refl;
    destruct (monitor_step env _ w) as [[p'|e|] w']; simpl in *;
    try done;
    by (eapply evolves_trans; [done|];
        apply (evolves_same _ (add_events [Uncaught e] w')), evolves_quiet).
Qed.

Lemma evolving_run_thread fuel : evolving (run_thread env fuel).
Proof.
  induction fuel as [|fuel IH]; intros w; simpl.
  - destruct (thread w) as [[]|]; apply evolves_refl.
  - destruct (thread w) as [[]|]; try apply evolves_refl;
      apply evolving_bind; auto using evolving_tick.
Qed.

Lemma evolving_thread_start failure : evolving (thread_start failure).
Proof.
  intros w. unfold thread_start.
  destruct failure as [e|]; simpl; [by apply evolves_quiet|].
  by apply (evolves_same _ (add_events [ThreadStart None] w)), evolves_quiet.
Qed.

Lemma evolving_join failure fuel : evolving (join env failure fuel).
Proof.
  intros w. unfold join.
  destruct failure as [e|]; simpl; [by apply evolves_quiet|].
  destruct (thread w); simpl; [|by apply evolves_quiet].
  eapply evolves_trans; [|apply evolving_run_thread].
  by apply evolves_quiet.
Qed.

Lemma evolving_start spawn_failure : evolving (start spawn_failure).
Proof.
  apply evolving_try_except.
  - apply evolving_bind; [apply evolving_set_process|]. intros _.
    apply evolving_bind; [apply evolving_thread_start|]. intros _.
    apply evolving_log.
  - intros e. apply evolving_bind; [apply evolving_log|]. intros _.
    apply evolving_set_process.
Qed.

Lemma evolving_finish join_failure fuel : evolving (finish env join_failure fuel).
Proof.
  apply evolving_bind; [apply evolving_gets|]. intros [t|]; [|apply evolving_ret].
  apply evolving_bind; [apply evolving_log|]. intros _.
  apply evolving_bind; [apply evolving_set|]. intros _.
  apply evolving_bind; [|intros _; apply evolving_set_process].
  apply evolving_try_except.
  - apply evolving_bind; [apply evolving_join|]. intros _. apply evolving_log.
  - intros e. apply evolving_log.
Qed.

Lemma evolves_perform c w : evolves w (perform env c w).
Proof.
  destruct c; simpl.
  - apply evolving_start.
  - apply evolving_tick.
  - apply evolving_collect_metrics.
  - apply evolving_aggregate_metrics.
  - apply evolving_publish_metrics.
  - apply evolving_finish.
Qed.

Lemma evolves_lifetime calls w : evolves w (lifetime env calls w).
Proof.
  revert w. induction calls as [|c calls IH]; intros w; simpl.
  - apply evolves_refl.
  - eapply evolves_trans; [apply evolves_perform | apply IH].
Qed.

(** C2: over the life of one monitor, the steps of the publications that
    the logger accepted are exactly 0, 1, 2, ...: [_logging_step] starts
    at 0 and is one more after each accepted publication and changed by
    nothing else, so the steps have no gap and no repeat and never go
    back. *)
Theorem logging_steps_count_up ext run_id si sbl w0 calls :
  __init__ ext run_id si sbl = Ok w0 ->
  let w := lifetime env calls w0 in
  _logging_step (self w0) = 0 /\
  (published (trace w)).*2 = Z.of_nat <$> seq 0 (length (published (trace w))) /\
  _logging_step (self w) = Z.of_nat (length (published (trace w))).
Proof.
  intros Hinit w.
  destruct (init_world _ _ _ _ _ Hinit) as (H0 & _ & _ & _ & _ & Hpub & _).
  destruct (evolves_lifetime calls w0)
    as (_ & _ & _ & _ & evs & Htr & _ & _ & Hsteps & Hlog).
  fold w in Htr, Hlog.
  rewrite Htr, published_app, Hpub, Hlog, H0. simpl.
  split; [done|]. split; [|done].
  rewrite H0 in Hsteps. rewrite Hsteps at 1. by rewrite length_fmap.
Qed.

(** X23: each of [sampling_interval] and [samples_before_logging] is
    settled once, by [__init__], and kept.  The value of the environment
    variable is taken when one is set and is not zero; the argument of
    the constructor (by default 10 and 1) is taken when none is set, and
    also when the one that is set is zero; and no call and no stretch of
    the thread changes the two values afterwards. *)
Theorem settings_are_kept ext run_id si sbl w0 calls :
  __init__ ext run_id si sbl = Ok w0 ->
  (forall f, MLFLOW_SYSTEM_METRICS_SAMPLING_INTERVAL ext = Some f ->
             truthy (Float f) = true ->
             sampling_interval (self w0) = Float f) /\
  (forall f, MLFLOW_SYSTEM_METRICS_SAMPLING_INTERVAL ext = Some f ->
             truthy (Float f) = false ->
             sampling_interval (self w0) = default (Int 10) si) /\
  (MLFLOW_SYSTEM_METRICS_SAMPLING_INTERVAL ext = None ->
   sampling_interval (self w0) = default (Int 10) si) /\
  (forall n, MLFLOW_SYSTEM_METRICS_SAMPLES_BEFORE_LOGGING ext = Some n ->
             n <> 0 ->
             samples_before_logging (self w0) = n) /\
  (MLFLOW_SYSTEM_METRICS_SAMPLES_BEFORE_LOGGING ext = Some 0 ->
   samples_before_logging (self w0) = default 1 sbl) /\
  (MLFLOW_SYSTEM_METRICS_SAMPLES_BEFORE_LOGGING ext = None ->
   samples_before_logging (self w0) = default 1 sbl) /\
  sampling_interval (self (lifetime env calls w0)) =
    sampling_interval (self w0) /\
  samples_before_logging (self (lifetime env calls w0)) =
    samples_before_logging (self w0).
Proof.
  intros Hinit.
  destruct (evolves_lifetime calls w0) as (Hi & Hs & _).
  repeat split; try done; revert Hinit; unfold __init__;
    destruct (CPUMonitor ext), (DiskMonitor ext), (NetworkMonitor ext),
      (GPUMonitor ext); simpl; intros [= <-]; simpl;
    try (intros f -> Hf; simpl; by rewrite ?Hf);
    try (intros ->; done);
    try (intros n -> Hn; simpl; by rewrite (proj2 (Z.eqb_neq n 0) Hn)).
Qed.


End with_env.

(** C7: when the constructor of the GPU source raises, the construction
    of the monitor still succeeds, with the CPU, disk and network sources
    as its sources; the failure is logged as a warning and the GPU source
    left out. *)
Theorem gpu_failure_is_not_fatal ext run_id si sbl cpu disk network e :
  CPUMonitor ext = Ok cpu ->
  DiskMonitor ext = Ok disk ->
  NetworkMonitor ext = Ok network ->
  GPUMonitor ext = Raise e ->
  exists w,
    __init__ (V := V) ext run_id si sbl = Ok w /\
    monitors (self w) = [cpu; disk; network] /\
    trace w = [Log WARNING (SkipGpu e)].
Proof.
  intros Hcpu Hdisk Hnet Hgpu. unfold __init__.
  rewrite Hcpu, Hdisk, Hnet, Hgpu. simpl. by eexists.
Qed.

End monitor_properties.

(** ** What each stretch of the background thread does *)

Section stretches.

Context {S V : Type} {src : source.Source S V}.
Variable env : Env.

Implicit Types (w : @World S V).

Lemma set_monitors_id (m : @SystemMetricsMonitor S) : set_monitors (monitors m) m = m.
Proof. by destruct m. Qed.

Lemma tick_while w :
  thread w = Some AtWhile ->
  tick env w =
  (Returns tt,
   set_thread (Some (if _shutdown_event (self w) then Exited
                     else InFor (Z.to_nat (samples_before_logging (self w)))))
     w).
Proof.
  intros Hth. unfold tick. rewrite Hth. simpl.
  unfold bind, is_set, gets. simpl.
  by destruct (_shutdown_event (self w)).
Qed.

Lemma tick_for_done w :
  thread w = Some (InFor 0) ->
  tick env w = (Returns tt, set_thread (Some AfterFor) w).
Proof. intros Hth. unfold tick. by rewrite Hth. Qed.

Lemma tick_sample w remaining :
  thread w = Some (InFor (Datatypes.S remaining)) ->
  tick env w =
  (Returns tt,
   match env_get_run env (get_run_calls w) with
   | Raise e => after_sample Exited [Log WARNING (FailedToGetRun e)] w
   | Ok status =>
       if bool_decide (status ≠ "RUNNING") || _shutdown_event (self w)
       then after_sample Exited [] w
       else after_sample (InFor remaining) [] w
   end).
Proof.
  intros Hth. unfold tick. rewrite Hth.
  unfold monitor_step, bind at 1, collect_metrics, for_monitor_in_self_monitors.
  rewrite (for_monitors_spec source.collect_metrics
             (fun s a => update a (source._metrics (source.collect_metrics s)))
             [Collect; ReadMetrics]) by done.
  unfold bind, gets, wait, emit, is_set, gets, try_except, get_run, log, emit,
    ret, after_sample, collected. simpl.
  destruct (env_get_run env (get_run_calls w)) as [status|e]; simpl.
  - case_bool_decide; simpl.
    + f_equal. unfold set_thread, add_events; simpl.
      by rewrite <- !(assoc_L (++)).
    + destruct (_shutdown_event (self w)); simpl; f_equal;
        unfold set_thread, add_events; simpl; by rewrite <- !(assoc_L (++)).
  - f_equal. unfold set_thread, add_events; simpl.
    by rewrite <- !(assoc_L (++)).
Qed.

Lemma tick_publish w :
  thread w = Some AfterFor ->
  tick env w =
  (Returns tt,
   match env_record_metrics env (record_metrics_calls w) with
   | None => after_publish w
   | Some e => after_refusal e w
   end).
Proof.
  intros Hth. unfold tick. rewrite Hth.
  unfold monitor_step, bind at 1, aggregate_metrics,
    for_monitor_in_self_monitors.
  rewrite (for_monitors_spec id
             (fun s a => update a (source.aggregate_metrics s)) [Aggregate])
    by done.
  rewrite list_fmap_id, set_monitors_id.
  unfold try_except, publish_metrics, bind, gets, record_metrics. simpl.
  destruct (env_record_metrics env (record_metrics_calls w)) as [e|]; simpl.
  - f_equal. unfold after_refusal, set_thread, add_events; simpl.
    destruct w; simpl. by rewrite <- !(assoc_L (++)).
  - unfold for_monitor_in_self_monitors. simpl.
    rewrite (for_monitors_spec source.clear_metrics (fun _ _ => tt) [Clear])
      by done.
    simpl.
    f_equal. unfold after_publish, set_thread, add_events, aggregated; simpl.
    by rewrite <- !(assoc_L (++)).
Qed.

Lemma tick_exited w :
  thread w = Some Exited -> tick env w = (Returns tt, w).
Proof. intros Hth. unfold tick. by rewrite Hth. Qed.

Lemma run_thread_exited fuel w :
  thread w = Some Exited -> run_thread env fuel w = (Returns tt, w).
Proof. intros Hth. destruct fuel; simpl; by rewrite Hth. Qed.

Lemma run_thread_step fuel w w' p :
  thread w = Some p -> p <> Exited -> tick env w = (Returns tt, w') ->
  run_thread env (Datatypes.S fuel) w = run_thread env fuel w'.
Proof.
  intros Hth Hp Htick. simpl. rewrite Hth.
  destruct p; try done; unfold bind; by rewrite Htick.
Qed.

Lemma run_while fuel w :
  thread w = Some AtWhile -> _shutdown_event (self w) = false ->
  run_thread env (Datatypes.S fuel) w =
  run_thread env fuel
    (set_thread (Some (InFor (Z.to_nat (samples_before_logging (self w))))) w).
Proof.
  intros Hth Hset.
  erewrite run_thread_step; [|done|done|by apply tick_while].
  by rewrite Hset.
Qed.

Lemma run_for_done fuel w :
  thread w = Some (InFor 0) ->
  run_thread env (Datatypes.S fuel) w =
  run_thread env fuel (set_thread (Some AfterFor) w).
Proof.
  intros Hth. by erewrite run_thread_step; [|done|done|by apply tick_for_done].
Qed.

Lemma run_sample fuel w remaining :
  thread w = Some (InFor (Datatypes.S remaining)) ->
  env_get_run env (get_run_calls w) = Ok "RUNNING" ->
  _shutdown_event (self w) = false ->
  run_thread env (Datatypes.S fuel) w =
  run_thread env fuel (after_sample (InFor remaining) [] w).
Proof.
  intros Hth Hrun Hset.
  erewrite run_thread_step; [|done|done|by apply tick_sample].
  by rewrite Hrun, Hset.
Qed.

Lemma run_sample_not_running fuel w remaining status :
  thread w = Some (InFor (Datatypes.S remaining)) ->
  env_get_run env (get_run_calls w) = Ok status ->
  status <> "RUNNING" ->
  run_thread env (Datatypes.S fuel) w = (Returns tt, after_sample Exited [] w).
Proof.
  intros Hth Hrun Hst.
  erewrite run_thread_step; [|done|done|by apply tick_sample].
  rewrite Hrun, bool_decide_eq_true_2 by done. simpl.
  by apply run_thread_exited.
Qed.

Lemma run_publish fuel w :
  thread w = Some AfterFor ->
  env_record_metrics env (record_metrics_calls w) = None ->
  run_thread env (Datatypes.S fuel) w = run_thread env fuel (after_publish w).
Proof.
  intros Hth Hsink.
  erewrite run_thread_step; [|done|done|by apply tick_publish].
  by rewrite Hsink.
Qed.

(** No stretch lets an exception through, and none waits. *)
Lemma tick_returns w : exists w', tick env w = (Returns tt, w').
Proof.
  destruct (thread w) as [[|[|remaining]| |]|] eqn:Hth.
  - rewrite tick_while; eauto.
  - rewrite tick_for_done; eauto.
  - erewrite tick_sample; eauto.
  - rewrite tick_publish; eauto.
  - rewrite tick_exited; eauto.
  - unfold tick. rewrite Hth. eauto.
Qed.

Lemma run_thread_never_raises fuel w e : (run_thread env fuel w).1 <> Raises e.
Proof.
  revert w. induction fuel as [|fuel IH]; intros w; simpl.
  - by destruct (thread w) as [[]|].
  - destruct (tick_returns w) as [w' Htick].
    destruct (thread w) as [[]|]; try done;
      unfold bind; rewrite Htick; apply IH.
Qed.

(** Once the shutdown event is set, the thread ends within three
    stretches: it is at most one iteration, one publication and one test
    of the [while] loop away from returning. *)
Lemma run_thread_stops fuel w p :
  thread w = Some p -> _shutdown_event (self w) = true -> (3 <= fuel)%nat ->
  exists w',
    run_thread env fuel w = (Returns tt, w') /\
    thread w' = Some Exited /\
    _process (self w') = _process (self w) /\
    _shutdown_event (self w') = true.
Proof.
  intros Hth Hset Hfuel.
  destruct fuel as [|[|[|fuel]]]; try lia.
  assert (Hwhile : forall n w1, thread w1 = Some AtWhile ->
            _shutdown_event (self w1) = true ->
            exists w', run_thread env (Datatypes.S n) w1 = (Returns tt, w') /\
              thread w' = Some Exited /\
              _process (self w') = _process (self w1) /\
              _shutdown_event (self w') = true).
  { intros n w1 Hth1 Hset1.
    erewrite run_thread_step; [|done|done|by apply tick_while].
    rewrite Hset1. rewrite run_thread_exited by done. eauto. }
  assert (Hafter : forall n w1, thread w1 = Some AfterFor ->
            _shutdown_event (self w1) = true ->
            exists w', run_thread env (Datatypes.S (Datatypes.S n)) w1
                       = (Returns tt, w') /\
              thread w' = Some Exited /\
              _process (self w') = _process (self w1) /\
              _shutdown_event (self w') = true).
  { intros n w1 Hth1 Hset1.
    erewrite run_thread_step; [|done|done|by apply tick_publish].
    destruct (env_record_metrics env (record_metrics_calls w1)) as [e|].
    - rewrite run_thread_exited by done. eauto.
    - destruct (Hwhile n (after_publish w1)) as (w' & -> & ? & ? & ?); eauto. }
  destruct p as [|[|remaining]| |].
  - by apply Hwhile.
  - erewrite run_thread_step; [|done|done|by apply tick_for_done].
    destruct (Hafter fuel (set_thread (Some AfterFor) w))
      as (w' & Hrun & ? & ? & ?); eauto.
  - erewrite run_thread_step; [|done|done|by apply tick_sample].
    destruct (env_get_run env (get_run_calls w));
      rewrite ?Hset, ?orb_true_r, run_thread_exited by done; eauto.
  - by apply Hafter.
  - rewrite run_thread_exited by done. eauto.
Qed.

(** C4: when, in an iteration of the [for] loop, [get_run] raises, or
    the status of the run is not RUNNING, or the shutdown event is found
    set after the wait, the thread ends at once: nothing is aggregated or
    published for the cycle at hand, and no exception leaves the loop. *)
Theorem sampling_stops_without_publishing w remaining :
  thread w = Some (InFor (Datatypes.S remaining)) ->
  (exists e, env_get_run env (get_run_calls w) = Raise e) \/
  (exists status, env_get_run env (get_run_calls w) = Ok status /\
                  status <> "RUNNING") \/
  _shutdown_event (self w) = true ->
  exists w' evs,
    tick env w = (Returns tt, w') /\
    thread w' = Some Exited /\
    (forall fuel, run_thread env fuel w' = (Returns tt, w')) /\
    trace w' = trace w ++ evs /\
    attempted evs = [] /\
    Forall (fun c => c.2 <> Aggregate) (source_calls evs) /\
    Forall (fun ev => forall e, ev <> Uncaught e) evs /\
    _logging_step (self w') = _logging_step (self w).
Proof.
  intros Hth Hstop.
  assert (Hcalls : Forall (fun c : nat * source_op => c.2 <> Aggregate)
            (source_calls (collected w))).
  { unfold collected. generalize 0%nat.
    induction (monitors (self w)) as [|s ms IH]; intros i; [constructor|].
    rewrite length_cons, loop_events_S. simpl.
    repeat (constructor; [done|]). apply IH. }
  assert (Hquiet : Forall (fun ev : @event V => forall e, ev <> Uncaught e)
            (collected w)).
  { unfold collected. generalize 0%nat.
    induction (monitors (self w)) as [|s ms IH]; intros i; [constructor|].
    rewrite length_cons, loop_events_S. simpl.
    repeat (constructor; [done|]). apply IH. }
  assert (Hexit : forall logged,
            attempted logged = [] -> source_calls logged = [] ->
            Forall (fun ev : @event V => forall e, ev <> Uncaught e) logged ->
            tick env w = (Returns tt, after_sample Exited logged w) ->
            exists w' evs,
              tick env w = (Returns tt, w') /\
              thread w' = Some Exited /\
              (forall fuel, run_thread env fuel w' = (Returns tt, w')) /\
              trace w' = trace w ++ evs /\
              attempted evs = [] /\
              Forall (fun c => c.2 <> Aggregate) (source_calls evs) /\
              Forall (fun ev => forall e, ev <> Uncaught e) evs /\
              _logging_step (self w') = _logging_step (self w)).
  { intros logged Hatt Hsrc Hun Htick.
    eexists _, _. split; [exact Htick|].
    split; [done|]. split; [by intros; apply run_thread_exited|].
    split; [done|].
    rewrite !attempted_app, !source_calls_app, Hatt, Hsrc.
    unfold collected at 1. rewrite attempted_loop_events. simpl.
    rewrite (right_id_L [] (++)).
    repeat split; try done.
    apply Forall_app. split; [done|].
    repeat (constructor; [done|]). done. }
  pose proof (tick_sample w remaining Hth) as Htick.
  destruct Hstop as [[e He]|[(status & Hst & Hne)|Hset]].
  - rewrite He in Htick.
    apply (Hexit [Log WARNING (FailedToGetRun e)]); try done.
    by repeat constructor.
  - rewrite Hst, bool_decide_eq_true_2 in Htick by done.
    by apply (Hexit []).
  - rewrite Hset in Htick.
    destruct (env_get_run env (get_run_calls w)) as [status|e].
    + rewrite orb_true_r in Htick. by apply (Hexit []).
    + apply (Hexit [Log WARNING (FailedToGetRun e)]); try done.
      by repeat constructor.
Qed.

(** ** [start] and [finish] *)

Lemma start_failure w e :
  start (Some e) w =
  (Returns tt,
   set_self (set_process None (self w))
     (add_events [ThreadStart (Some e); Log WARNING (FailedToStart e)] w)).
Proof.
  unfold start, try_except, bind, modify, thread_start, log, emit. simpl.
  f_equal. unfold set_self, add_events; simpl.
  by rewrite <- (assoc_L (++)).
Qed.

Lemma finish_no_process w join_failure fuel :
  _process (self w) = None -> finish env join_failure fuel w = (Returns tt, w).
Proof. intros Hp. unfold finish, bind, gets. simpl. by rewrite Hp. Qed.

Lemma finish_join_raises w t e fuel :
  _process (self w) = Some t ->
  finish env (Some e) fuel w =
  (Returns tt,
   set_self (set_process None (self (joining (Some e) w)))
     (add_events [Log ERROR (ErrorTerminating e)] (joining (Some e) w))).
Proof.
  intros Hp. unfold finish, bind at 1, gets. simpl. rewrite Hp.
  unfold try_except, bind, join, log, emit, set, modify. simpl.
  f_equal. unfold joining, set_self, add_events; simpl.
  by rewrite <- !(assoc_L (++)).
Qed.

Lemma finish_not_started w t fuel :
  _process (self w) = Some t -> thread w = None ->
  let e := RuntimeError "cannot join thread before it is started" in
  finish env None fuel w =
  (Returns tt,
   set_self (set_process None (self (joining None w)))
     (add_events [Log ERROR (ErrorTerminating e)] (joining None w))).
Proof.
  intros Hp Hth. unfold finish, bind at 1, gets. simpl. rewrite Hp.
  unfold try_except, bind, join, log, emit, set, modify. simpl.
  rewrite Hth. simpl.
  f_equal. unfold joining, set_self, add_events; simpl.
  by rewrite <- !(assoc_L (++)).
Qed.

Lemma finish_joins w t p fuel :
  _process (self w) = Some t -> thread w = Some p ->
  finish env None fuel w =
  match run_thread env fuel (joining None w) with
  | (Returns _, w') =>
      (Returns tt,
       set_self (set_process None (self w'))
         (add_events [Log INFO Terminated] w'))
  | (Raises e, w') =>
      (Returns tt,
       set_self (set_process None (self w'))
         (add_events [Log ERROR (ErrorTerminating e)] w'))
  | (Waits, w') => (Waits, w')
  end.
Proof.
  intros Hp Hth. unfold finish, bind at 1, gets. simpl. rewrite Hp.
  unfold try_except, bind, join, log, emit, set, modify. simpl.
  rewrite Hth. simpl.
  replace (add_events [ThreadJoin None]
             (set_self (set_shutdown_event true (self w))
                (add_events [Log INFO Stopping] w)))
    with (joining None w)
    by (unfold joining, set_self, add_events; simpl;
        by rewrite <- !(assoc_L (++))).
  by destruct (run_thread env fuel (joining None w)) as [[[]|e|] w'].
Qed.

Lemma finish_does_not_raise w join_failure fuel e :
  (finish env join_failure fuel w).1 <> Raises e.
Proof.
  destruct (_process (self w)) as [t|] eqn:Hp;
    [|by rewrite finish_no_process].
  destruct join_failure as [e'|]; [by erewrite finish_join_raises|].
  destruct (thread w) as [p|] eqn:Hth; [|by erewrite finish_not_started].
  erewrite finish_joins by done.
  by destruct (run_thread env fuel (joining None w)) as [[[]|e'|] w'].
Qed.

(** C8: [finish] never raises.  When the thread was never started, or
    [start] could not start it ([start] catches the failure, logs it and
    leaves [_process] unset), [finish] does nothing.  Otherwise it sets
    the shutdown event, joins the thread, logs a failure of the join
    without raising it, and unsets [_process], so that a second [finish]
    does nothing. *)
Theorem finish_never_raises w join_failure fuel :
  (3 <= fuel)%nat ->
  (forall fuel' e, (finish env join_failure fuel' w).1 <> Raises e) /\
  (forall ext run_id si sbl w0,
     __init__ ext run_id si sbl = Ok w0 ->
     finish env join_failure fuel w0 = (Returns tt, w0)) /\
  (forall e, exists w',
     start (Some e) w = (Returns tt, w') /\
     _process (self w') = None /\
     trace w' = trace w ++ [ThreadStart (Some e); Log WARNING (FailedToStart e)] /\
     finish env join_failure fuel w' = (Returns tt, w')) /\
  (_process (self w) = None ->
   finish env join_failure fuel w = (Returns tt, w)) /\
  (is_Some (_process (self w)) ->
   exists w' evs,
     finish env join_failure fuel w = (Returns tt, w') /\
     _shutdown_event (self w') = true /\
     _process (self w') = None /\
     trace w' = trace w ++ [Log INFO Stopping; ThreadJoin join_failure] ++ evs /\
     (forall e, join_failure = Some e ->
                evs = [Log ERROR (ErrorTerminating e)]) /\
     (join_failure = None -> is_Some (thread w) ->
      thread w' = Some Exited /\ last evs = Some (Log INFO Terminated)) /\
     (forall join_failure' fuel',
        finish env join_failure' fuel' w' = (Returns tt, w'))).
Proof.
  intros Hfuel.
  split; [intros; apply finish_does_not_raise|].
  split.
  { intros ext run_id si sbl w0 Hinit. apply finish_no_process.
    by destruct (init_world _ _ _ _ _ Hinit) as (_ & ? & _). }
  split.
  { intros e. eexists. split; [apply start_failure|].
    split; [done|]. split; [done|]. by apply finish_no_process. }
  split; [apply finish_no_process|].
  intros [t Hp].
  destruct join_failure as [e|].
  { eexists _, [Log ERROR (ErrorTerminating e)].
    split; [by erewrite finish_join_raises|].
    simpl. repeat split; try done.
    - by rewrite <- (assoc_L (++)).
    - by intros e' [= ->]. }
  destruct (thread w) as [p|] eqn:Hth.
  - destruct (run_thread_stops fuel (joining None w) p)
      as (w' & Hrun & Hexit & Hproc & Hset); try done.
    destruct (evolving_run_thread env fuel (joining None w))
      as (_ & _ & _ & _ & evs & Htr & _).
    rewrite Hrun in Htr. simpl in Htr.
    exists (set_self (set_process None (self w'))
              (add_events [Log INFO Terminated] w')),
           (evs ++ [Log INFO Terminated]).
    split; [by erewrite finish_joins, Hrun|].
    simpl. repeat split; try done.
    + rewrite Htr. simpl. by rewrite <- !(assoc_L (++)).
    + by rewrite last_snoc.
  - eexists _, [Log ERROR _].
    split; [by erewrite finish_not_started|].
    simpl. repeat split; try done;
      try (by rewrite <- (assoc_L (++))); by intros _ [? ?].
Qed.

(** C3: when the logger raises on a publication, the loop logs the
    failure and ends after that one attempt: nothing is tried again and no
    exception leaves the loop; [_logging_step] keeps the value it had
    after the last accepted publication; and a [finish] afterwards joins
    the thread, which has ended, and returns. *)
Theorem publish_failure_stops_monitoring w e t :
  thread w = Some AfterFor ->
  env_record_metrics env (record_metrics_calls w) = Some e ->
  _process (self w) = Some t ->
  exists w1,
    tick env w = (Returns tt, w1) /\
    thread w1 = Some Exited /\
    trace w1 =
      trace w ++ loop_events [Aggregate] 0 (length (monitors (self w))) ++
        [RecordMetrics (aggregated w) (_logging_step (self w)) (Some e);
         Log WARNING (FailedToLog e)] /\
    attempted (trace w1) =
      attempted (trace w) ++ [(aggregated w, _logging_step (self w))] /\
    published (trace w1) = published (trace w) /\
    _logging_step (self w1) = _logging_step (self w) /\
    (forall fuel, run_thread env fuel w1 = (Returns tt, w1)) /\
    forall fuel, exists w2,
      finish env None fuel w1 = (Returns tt, w2) /\
      trace w2 =
        trace w1 ++ [Log INFO Stopping; ThreadJoin None; Log INFO Terminated] /\
      thread w2 = Some Exited /\
      _process (self w2) = None /\
      _logging_step (self w2) = _logging_step (self w).
Proof.
  intros Hth Hsink Hp.
  exists (after_refusal e w).
  split; [by rewrite tick_publish, Hsink|].
  split; [done|]. split; [done|].
  split.
  { simpl. by rewrite !attempted_app, attempted_loop_events. }
  split.
  { simpl. rewrite !published_app, published_loop_events. simpl.
    by rewrite (right_id_L [] (++)). }
  split; [done|].
  split; [by intros; apply run_thread_exited|].
  intros fuel. eexists.
  split.
  { erewrite finish_joins by done.
    by rewrite run_thread_exited. }
  simpl. repeat split; try done.
  by rewrite <- !(assoc_L (++)).
Qed.

End stretches.

(** ** The scenario with mock sources *)

Section scenario.

Context {V : Type}.
Variable reduce : list V -> V.
Variable env : Env.

Abbreviation mocks := (mock_source reduce).

Implicit Types (w : @World (@MockSource V) V) (ms : list (@MockSource V)).

(** The batch of mock sources: for each, its name and the reduction of
    its samples. *)
Lemma aggregated_mocks w :
  NoDup (mock_name <$> monitors (self w)) ->
  aggregated (src := mocks) w =
  list_to_map ((fun s => (mock_name s, reduce (mock_samples s)))
                 <$> monitors (self w)).
Proof.
  intros Hnd. unfold aggregated. simpl.
  rewrite <- (fold_left_insert_NoDup mock_name
                (fun s => reduce (mock_samples s))) by done.
  apply fold_left_pointwise. intros a s. unfold update.
  by rewrite insert_union_singleton_l.
Qed.

Lemma three_samples ms :
  Forall (fun s => mock_samples s = []) ms ->
  (fun s => (mock_name s, reduce (mock_samples s))) <$>
    (source.collect_metrics (Source := mocks) <$>
       (source.collect_metrics (Source := mocks) <$>
          (source.collect_metrics (Source := mocks) <$> ms))) =
  (fun s => (mock_name s, reduce (replicate 3 (mock_value s)))) <$> ms.
Proof.
  induction 1 as [|s ms Hs _ IH]; [done|].
  rewrite !fmap_cons, IH. simpl. by rewrite Hs.
Qed.

Lemma mock_names_collected ms :
  mock_name <$> (source.collect_metrics (Source := mocks) <$> ms) =
  mock_name <$> ms.
Proof. by rewrite <- list_fmap_compose. Qed.

(** C1: with a sampling interval of 1, three samples before logging,
    sources that each add a constant under a name of their own, a run
    that is RUNNING at the first three queries of its status and
    terminated at the fourth, and a logger that accepts what it is given,
    the loop publishes once, at step 0, a batch with one aggregated value
    for each source's name, and returns without a second publication. *)
Theorem scenario_publishes_once w status fuel :
  thread w = Some AtWhile ->
  sampling_interval (self w) = Int 1 ->
  samples_before_logging (self w) = 3 ->
  _shutdown_event (self w) = false ->
  _logging_step (self w) = 0 ->
  NoDup (mock_name <$> monitors (self w)) ->
  Forall (fun s => mock_samples s = []) (monitors (self w)) ->
  get_run_calls w = 0%nat ->
  record_metrics_calls w = 0%nat ->
  attempted (trace w) = [] ->
  env_get_run env 0 = Ok "RUNNING" ->
  env_get_run env 1 = Ok "RUNNING" ->
  env_get_run env 2 = Ok "RUNNING" ->
  env_get_run env 3 = Ok status ->
  status <> "RUNNING" ->
  env_record_metrics env 0 = None ->
  (8 <= fuel)%nat ->
  let batch : gmap string V :=
    list_to_map ((fun s => (mock_name s, reduce (replicate 3 (mock_value s))))
                   <$> monitors (self w)) in
  exists w',
    run_thread (src := mocks) env fuel w = (Returns tt, w') /\
    thread w' = Some Exited /\
    attempted (trace w') = [(batch, 0)] /\
    published (trace w') = [(batch, 0)] /\
    (forall s, s ∈ monitors (self w) ->
               batch !! mock_name s
               = Some (reduce (replicate 3 (mock_value s)))) /\
    size batch = length (monitors (self w)) /\
    waits (trace w') = waits (trace w) ++ replicate 4 (Int 1) /\
    _logging_step (self w') = 1.
Proof.
  intros Hth Hint Hk Hset Hstep Hnd Hfresh Hgr Hrm Hatt
    Hrun0 Hrun1 Hrun2 Hrun3 Hstatus Hsink Hfuel batch.
  do 8 (destruct fuel as [|fuel]; [lia|]).
  rewrite run_while, Hk by done.
  rewrite (run_sample _ _ _ 2) by (simpl; rewrite ?Hgr; done).
  rewrite (run_sample _ _ _ 1) by (simpl; rewrite ?Hgr; done).
  rewrite (run_sample _ _ _ 0) by (simpl; rewrite ?Hgr; done).
  rewrite run_for_done by done.
  rewrite run_publish by (simpl; rewrite ?Hrm; done).
  rewrite run_while by done. simpl samples_before_logging. rewrite Hk.
  erewrite (run_sample_not_running _ _ _ 2 status);
    [|done|simpl; rewrite ?Hgr; done|done].
  eexists. split; [reflexivity|].
  assert (Hbatch : aggregated (src := mocks)
            (set_thread (Some AfterFor)
               (after_sample (src := mocks) (InFor 0) []
                  (after_sample (src := mocks) (InFor 1) []
                     (after_sample (src := mocks) (InFor 2) []
                        (set_thread (Some (InFor (Z.to_nat 3))) w)))))
          = batch).
  { rewrite aggregated_mocks; simpl.
    - by rewrite three_samples.
    - by rewrite !mock_names_collected. }
  simpl.
  rewrite !attempted_app, !published_app. simpl.
  unfold collected. simpl.
  rewrite !attempted_loop_events, !published_loop_events, Hatt.
  assert (Hpub : published (trace w) = []).
  { revert Hatt. clear. by induction (trace w) as [|[] tr IH]. }
  rewrite Hpub, Hstep. simpl. rewrite Hbatch.
  rewrite !waits_app, !waits_loop_events, Hint. simpl.
  repeat split; try done.
  - intros s Hs. unfold batch.
    apply elem_of_list_to_map.
    + by rewrite <- list_fmap_compose.
    + apply list_elem_of_fmap. by exists s.
  - unfold batch. rewrite map_size_list_to_map, length_fmap; [done|].
    by rewrite <- list_fmap_compose.
  - rewrite waits_loop_events, (right_id_L [] (++)).
    by rewrite <- !(assoc_L (++)).
Qed.

End scenario.

(** * The statements at the example inputs *)

Section at_examples.

Import examples.

Abbreviation mocks := (mock_source total).

Example started_by_init_and_start :
  match __init__ four_mocks "run" (Some (Int 1)) (Some 3) with
  | Ok w => Some (start None w).2
  | Raise _ => None
  end = Some started.
Proof. reflexivity. Qed.

Lemma scenario_publishes_once_at_four_mocks :
  exists w',
    run_thread (src := mocks) three_then_finished 8 started
      = (Returns tt, w') /\
    thread w' = Some Exited /\
    attempted (trace w') =
      [(list_to_map
          ((fun s => (mock_name s, total (replicate 3 (mock_value s))))
             <$> monitors (self started)), 0)] /\
    published (trace w') =
      [(list_to_map
          ((fun s => (mock_name s, total (replicate 3 (mock_value s))))
             <$> monitors (self started)), 0)] /\
    (forall s, s ∈ monitors (self started) ->
       (list_to_map
          ((fun s => (mock_name s, total (replicate 3 (mock_value s))))
             <$> monitors (self started)) : gmap string Z) !! mock_name s
       = Some (total (replicate 3 (mock_value s)))) /\
    size (list_to_map
            ((fun s => (mock_name s, total (replicate 3 (mock_value s))))
               <$> monitors (self started)) : gmap string Z)
      = length (monitors (self started)) /\
    waits (trace w') = waits (trace started) ++ replicate 4 (Int 1) /\
    _logging_step (self w') = 1.
Proof.
  apply (scenario_publishes_once total three_then_finished started "FINISHED");
    try reflexivity; try discriminate; try lia.
  - apply (@bool_decide_unpack _ (NoDup_dec _)). vm_compute. reflexivity.
  - repeat constructor.
Defined.

Lemma logging_steps_count_up_after_a_run :
  _logging_step (self constructed) = 0 /\
  (published (trace (lifetime (src := mocks) three_then_finished a_life
                       constructed))).*2
  = Z.of_nat <$>
      seq 0 (length (published (trace (lifetime (src := mocks)
                                         three_then_finished a_life
                                         constructed)))) /\
  _logging_step (self (lifetime (src := mocks) three_then_finished a_life
                         constructed))
  = Z.of_nat (length (published (trace (lifetime (src := mocks)
                                          three_then_finished a_life
                                          constructed)))).
Proof.
  apply (logging_steps_count_up (src := mocks) three_then_finished
           four_mocks "run" (Some (Int 1)) (Some 3)).
  reflexivity.
Defined.

Lemma publish_failure_stops_monitoring_at_refusal :
  exists w1,
    tick (src := mocks) refusing publishing = (Returns tt, w1) /\
    thread w1 = Some Exited /\
    trace w1 =
      trace publishing ++
        loop_events [Aggregate] 0 (length (monitors (self publishing))) ++
        [RecordMetrics (aggregated (src := mocks) publishing)
           (_logging_step (self publishing)) (Some (Exception "run deleted"));
         Log WARNING (FailedToLog (Exception "run deleted"))] /\
    attempted (trace w1) =
      attempted (trace publishing) ++
        [(aggregated (src := mocks) publishing,
          _logging_step (self publishing))] /\
    published (trace w1) = published (trace publishing) /\
    _logging_step (self w1) = _logging_step (self publishing) /\
    (forall fuel, run_thread (src := mocks) refusing fuel w1 = (Returns tt, w1)) /\
    forall fuel, exists w2,
      finish (src := mocks) refusing None fuel w1 = (Returns tt, w2) /\
      trace w2 =
        trace w1 ++ [Log INFO Stopping; ThreadJoin None; Log INFO Terminated] /\
      thread w2 = Some Exited /\
      _process (self w2) = None /\
      _logging_step (self w2) = _logging_step (self publishing).
Proof.
  apply (publish_failure_stops_monitoring (src := mocks) refusing publishing
           (Exception "run deleted") monitor_thread); reflexivity.
Defined.

Lemma sampling_stops_without_publishing_when_unreachable :
  exists w' evs,
    tick (src := mocks) unreachable sampling = (Returns tt, w') /\
    thread w' = Some Exited /\
    (forall fuel, run_thread (src := mocks) unreachable fuel w'
                  = (Returns tt, w')) /\
    trace w' = trace sampling ++ evs /\
    attempted evs = [] /\
    Forall (fun c => c.2 <> Aggregate) (source_calls evs) /\
    Forall (fun ev => forall e, ev <> Uncaught e) evs /\
    _logging_step (self w') = _logging_step (self sampling).
Proof.
  apply (sampling_stops_without_publishing (src := mocks) unreachable
           sampling 0).
  - reflexivity.
  - left. exists (Exception "connection refused"). reflexivity.
Defined.

(** C5: with both environment variables set, to zero, and the
    arguments 5 and 2, [__init__] settles on 5 and 2: the values that are
    set are not used, the arguments of the constructor are, although the
    variables are to override them.  [X.get() or argument] takes a zero
    for a variable that is not set. *)
Lemma zero_override_is_not_used :
  exists w : @World MockSource Z,
    MLFLOW_SYSTEM_METRICS_SAMPLING_INTERVAL zero_overrides
      = Some (S754_zero false) /\
    MLFLOW_SYSTEM_METRICS_SAMPLES_BEFORE_LOGGING zero_overrides = Some 0 /\
    __init__ zero_overrides "run" (Some (Int 5)) (Some 2) = Ok w /\
    sampling_interval (self w) = Int 5 /\
    sampling_interval (self w) <> Float (S754_zero false) /\
    samples_before_logging (self w) = 2 /\
    samples_before_logging (self w) <> 0.
Proof. eexists. repeat split; try reflexivity; discriminate. Qed.

Lemma settings_are_kept_at_four_mocks :
  (forall f, MLFLOW_SYSTEM_METRICS_SAMPLING_INTERVAL four_mocks = Some f ->
             truthy (Float f) = true ->
             sampling_interval (self constructed) = Float f) /\
  (forall f, MLFLOW_SYSTEM_METRICS_SAMPLING_INTERVAL four_mocks = Some f ->
             truthy (Float f) = false ->
             sampling_interval (self constructed)
             = default (Int 10) (Some (Int 1))) /\
  (MLFLOW_SYSTEM_METRICS_SAMPLING_INTERVAL four_mocks = None ->
   sampling_interval (self constructed) = default (Int 10) (Some (Int 1))) /\
  (forall n, MLFLOW_SYSTEM_METRICS_SAMPLES_BEFORE_LOGGING four_mocks = Some n ->
             n <> 0 ->
             samples_before_logging (self constructed) = n) /\
  (MLFLOW_SYSTEM_METRICS_SAMPLES_BEFORE_LOGGING four_mocks = Some 0 ->
   samples_before_logging (self constructed) = default 1 (Some 3)) /\
  (MLFLOW_SYSTEM_METRICS_SAMPLES_BEFORE_LOGGING four_mocks = None ->
   samples_before_logging (self constructed) = default 1 (Some 3)) /\
  sampling_interval
    (self (lifetime (src := mocks) three_then_finished a_life constructed)) =
    sampling_interval (self constructed) /\
  samples_before_logging
    (self (lifetime (src := mocks) three_then_finished a_life constructed)) =
    samples_before_logging (self constructed).
Proof.
  apply (settings_are_kept (src := mocks) three_then_finished
           four_mocks "run" (Some (Int 1)) (Some 3)).
  reflexivity.
Defined.


Lemma gpu_failure_is_not_fatal_at_no_gpu :
  exists w : @World MockSource Z,
    __init__ no_gpu "run" None None = Ok w /\
    monitors (self w) = [cpu; disk; network] /\
    trace w = [Log WARNING (SkipGpu (Exception "no GPU"))].
Proof.
  apply (gpu_failure_is_not_fatal no_gpu "run" None None cpu disk network
           (Exception "no GPU")); reflexivity.
Defined.

Lemma finish_never_raises_when_started :
  (forall fuel' e,
     (finish (src := mocks) three_then_finished None fuel' started).1
     <> Raises e) /\
  (forall ext run_id si sbl w0,
     __init__ ext run_id si sbl = Ok w0 ->
     finish (src := mocks) three_then_finished None 3 w0 = (Returns tt, w0)) /\
  (forall e, exists w',
     start (Some e) started = (Returns tt, w') /\
     _process (self w') = None /\
     trace w' =
       trace started ++ [ThreadStart (Some e); Log WARNING (FailedToStart e)] /\
     finish (src := mocks) three_then_finished None 3 w' = (Returns tt, w')) /\
  (_process (self started) = None ->
   finish (src := mocks) three_then_finished None 3 started
   = (Returns tt, started)) /\
  (is_Some (_process (self started)) ->
   exists w' evs,
     finish (src := mocks) three_then_finished None 3 started
       = (Returns tt, w') /\
     _shutdown_event (self w') = true /\
     _process (self w') = None /\
     trace w' = trace started ++ [Log INFO Stopping; ThreadJoin None] ++ evs /\
     (forall e, None = Some e -> evs = [Log ERROR (ErrorTerminating e)]) /\
     (@None exn = None -> is_Some (thread started) ->
      thread w' = Some Exited /\ last evs = Some (Log INFO Terminated)) /\
     (forall join_failure' fuel',
        finish (src := mocks) three_then_finished join_failure' fuel' w'
        = (Returns tt, w'))).
Proof.
  apply (finish_never_raises (src := mocks) three_then_finished started None 3).
  lia.
Defined.

End at_examples.

(** * More on [Metric] *)

Section more_on_metric.

Import metric.

(** Two floats are equal when they are the same float, or two zeros. *)
Lemma SFeqb_true (f g : float) :
  SFeqb f g = true ->
  f = g \/ exists s s', f = S754_zero s /\ g = S754_zero s'.
Proof.
  unfold SFeqb, SFcompare.
  destruct f as [s|s| |s m e], g as [s'|s'| |s' m' e']; intros H;
    try discriminate H; try (destruct s; discriminate H);
    try (destruct s'; discriminate H).
  - right. eauto.
  - destruct s, s'; try discriminate H; by left.
  - destruct s, s'; try discriminate H;
      destruct (Z.compare_spec e e') as [->| |]; try discriminate H;
      rewrite Pos.compare_cont_spec in H; simpl in H;
      destruct (Pos.compare_spec m m') as [->| |];
      try discriminate H; by left.
Qed.

Lemma SFeqb_sym (f g : float) : SFeqb f g = SFeqb g f.
Proof.
  assert (Hsym : forall f g, SFeqb f g = true -> SFeqb g f = true).
  { intros f' g' H. destruct (SFeqb_true _ _ H) as [->|(s & s' & -> & ->)];
      done. }
  destruct (SFeqb f g) eqn:Hfg, (SFeqb g f) eqn:Hgf; try done.
  - apply Hsym in Hfg. congruence.
  - apply Hsym in Hgf. congruence.
Qed.

Lemma py_eq_sym (a b : py.value) : py_eq a b = py_eq b a.
Proof.
  destruct a, b; simpl; try done.
  - apply bool_decide_ext. naive_solver.
  - apply Z.eqb_sym.
  - apply SFeqb_sym.
  - apply bool_decide_ext. naive_solver.
Qed.

(** [dict_eq], spelt out. *)
Lemma dict_eq_true (a b : gmap string py.value) :
  dict_eq a b = true <->
  size a = size b /\
  forall k v, a !! k = Some v -> exists v', b !! k = Some v' /\ py_eq v v' = true.
Proof.
  unfold dict_eq. rewrite andb_true_iff, Nat.eqb_eq, forallb_forall.
  split; intros [Hsize Hall]; (split; [done|]).
  - intros k v Hk.
    specialize (Hall (k, v)). simpl in Hall.
    destruct (b !! k) as [v'|] eqn:Hb.
    + exists v'. split; [done|].
      apply Hall, list_elem_of_In, elem_of_map_to_list, Hk.
    + exfalso. eapply diff_false_true.
      apply Hall, list_elem_of_In, elem_of_map_to_list, Hk.
  - intros [k v] Hin. simpl.
    apply list_elem_of_In, elem_of_map_to_list in Hin.
    destruct (Hall k v Hin) as (v' & -> & Heq). done.
Qed.

Lemma dict_eq_true_sym (a b : gmap string py.value) :
  dict_eq a b = true -> dict_eq b a = true.
Proof.
  rewrite !dict_eq_true. intros [Hsize Hall]. split; [done|].
  assert (Hdom : dom a = dom b).
  { apply set_subseteq_size_eq.
    - intros k [v Hk]%elem_of_dom.
      destruct (Hall k v Hk) as (v' & Hb & _). apply elem_of_dom. eauto.
    - rewrite !size_dom. lia. }
  intros k v' Hb.
  assert (Hin : k ∈ dom a) by (rewrite Hdom; apply elem_of_dom; eauto).
  apply elem_of_dom in Hin as [v Ha].
  destruct (Hall k v Ha) as (v'' & Hb' & Heq).
  exists v. split; [done|].
  rewrite Hb in Hb'. injection Hb' as <-. by rewrite py_eq_sym.
Qed.

(** X1: [__eq__] is symmetric: for two [Metric] objects, whatever their
    attributes, [a == b] and [b == a] agree. *)
Theorem eq_symmetric (a b : Metric) :
  __eq__ a (MetricObject b) = __eq__ b (MetricObject a).
Proof.
  unfold __eq__.
  destruct (dict_eq (__dict__ a) (__dict__ b)) eqn:Hab,
           (dict_eq (__dict__ b) (__dict__ a)) eqn:Hba; try done.
  - apply dict_eq_true_sym in Hab. congruence.
  - apply dict_eq_true_sym in Hba. congruence.
Qed.

Lemma tags_or_empty_Some (d : gmap string string) :
  tags_or_empty (Some d) = d.
Proof. simpl. by case_bool_decide. Qed.

Lemma constructed_lookup key value timestamp step tags (k : string) :
  __dict__ (__init__ key value timestamp step tags) !! k =
  if decide (k = "_tags") then Some (VDict (tags_or_empty tags))
  else if decide (k = "_step") then Some (VInt step)
  else if decide (k = "_timestamp") then Some (VInt timestamp)
  else if decide (k = "_value") then Some (VFloat value)
  else if decide (k = "_key") then Some (VStr key)
  else None.
Proof.
  unfold __init__, setattr; simpl.
  rewrite !lookup_insert, lookup_empty.
  repeat case_decide; congruence.
Qed.

Lemma constructed_size key value timestamp step tags :
  size (__dict__ (__init__ key value timestamp step tags)) = 5%nat.
Proof.
  unfold __init__, setattr; simpl.
  rewrite !map_size_insert_None, map_size_empty; [done|..];
    by rewrite ?lookup_insert_ne, ?lookup_empty.
Qed.

(** X2: a metric built by [__init__] with a value other than NaN is equal
    to another one exactly when their keys, timestamps and steps are the
    same, their values are equal as floats, and their tags are the same
    once [None] is taken as the empty mapping.  (One NaN object held by
    both would compare equal by identity, which is outside [py_eq].) *)
Theorem eq_constructed key value timestamp step tags
    key' value' timestamp' step' tags' :
  value <> S754_nan ->
  __eq__ (__init__ key value timestamp step tags)
    (MetricObject (__init__ key' value' timestamp' step' tags')) = true
  <-> key = key' /\ SFeqb value value' = true /\ timestamp = timestamp' /\
      step = step' /\ tags_or_empty tags = tags_or_empty tags'.
Proof.
  intros _.
  unfold __eq__. rewrite dict_eq_true, !constructed_size. split.
  - intros [_ Hall].
    assert (Hat : forall k v,
              __dict__ (__init__ key value timestamp step tags) !! k = Some v ->
              exists v',
                __dict__ (__init__ key' value' timestamp' step' tags') !! k
                  = Some v' /\ py_eq v v' = true) by exact Hall.
    clear Hall.
    pose proof (Hat "_key" _ (constructed_lookup _ _ _ _ _ _)) as (? & Hk & Ek).
    pose proof (Hat "_value" _ (constructed_lookup _ _ _ _ _ _)) as (? & Hv & Ev).
    pose proof (Hat "_timestamp" _ (constructed_lookup _ _ _ _ _ _))
      as (? & Ht & Et).
    pose proof (Hat "_step" _ (constructed_lookup _ _ _ _ _ _)) as (? & Hs & Es).
    pose proof (Hat "_tags" _ (constructed_lookup _ _ _ _ _ _)) as (? & Hg & Eg).
    rewrite constructed_lookup in Hk, Hv, Ht, Hs, Hg. simpl in *.
    injection Hk as <-. injection Hv as <-. injection Ht as <-.
    injection Hs as <-. injection Hg as <-. simpl in *.
    apply bool_decide_eq_true_1 in Ek, Eg.
    apply Z.eqb_eq in Et, Es. done.
  - intros (-> & Hv & -> & -> & Hg). split; [done|].
    intros k v. rewrite !constructed_lookup, Hg.
    repeat case_decide; try done; intros [= <-]; eexists; (split; [done|]);
      simpl; try (by apply bool_decide_eq_true_2);
      try (by apply Z.eqb_refl); done.
Qed.

(** X22: [to_proto] of a metric built by [__init__] raises [ValueError]
    when the timestamp or the step is an integer outside the signed
    64-bit range: the [int64] field of the message refuses it. *)
Theorem to_proto_beyond_int64 key value timestamp step tags :
  ~ (int64_range timestamp /\ int64_range step) ->
  to_proto (__init__ key value timestamp step tags)
  = Raise (ValueError "Value out of range").
Proof.
  intros Hout.
  unfold to_proto, metric.tags, metric.key, metric.value, metric.timestamp,
    metric.step, __init__.
  repeat (rewrite !getattr_setattr; simpl).
  destruct (decide (int64_range timestamp)); [|done].
  destruct (decide (int64_range step)); [|done].
  by destruct Hout.
Qed.

(** X3: [to_proto] of a metric built by [__init__] with a timestamp and
    a step of the signed 64-bit range returns a message with the key,
    value, timestamp and step of the metric and one dimension for each
    tag: the keys of the dimensions are distinct, and a dimension is in
    the message exactly when the tags hold it. *)
Theorem to_proto_constructed key value timestamp step tags :
  int64_range timestamp -> int64_range step ->
  exists proto,
    to_proto (__init__ key value timestamp step tags) = Ok proto /\
    proto_key proto = key /\ proto_value proto = value /\
    proj1_sig (proto_timestamp proto) = timestamp /\
    proj1_sig (proto_step proto) = step /\
    NoDup (dim_key <$> dimensions proto) /\
    length (dimensions proto) = size (tags_or_empty tags) /\
    forall k v, mkDimension k v ∈ dimensions proto <->
                tags_or_empty tags !! k = Some v.
Proof.
  intros Hts Hs.
  eexists. split; [apply (to_proto_of_constructed _ _ _ _ _ Hts Hs)|].
  simpl. repeat split; try done.
  - rewrite <- list_fmap_compose. apply NoDup_fst_map_to_list.
  - by rewrite length_fmap, length_map_to_list.
  - intros (kv & [= -> ->] & Hin)%list_elem_of_fmap.
    apply elem_of_map_to_list. by destruct kv.
  - intros Hk. apply list_elem_of_fmap. exists (k, v).
    split; [done|]. by apply elem_of_map_to_list.
Qed.

Lemma fold_left_insert_skip (post : list Dimension) (k : string)
    (acc : gmap string string) :
  Forall (fun d => dim_key d <> k) post ->
  fold_left (fun acc d => <[dim_key d := dim_value d]> acc) post acc !! k =
  acc !! k.
Proof.
  intros Hpost. revert acc.
  induction Hpost as [|d post Hd _ IH]; intros acc; [done|].
  simpl. by rewrite IH, lookup_insert_ne.
Qed.

(** X4: when a message has several dimensions with one key, [from_proto]
    keeps the value of the last of them. *)
Theorem from_proto_last_dimension_wins key value timestamp step pre d post :
  Forall (fun d' => dim_key d' <> dim_key d) post ->
  exists tags,
    metric.tags (from_proto (mkProtoMetric key value timestamp step
                               (pre ++ d :: post))) = Ok (VDict tags) /\
    tags !! dim_key d = Some (dim_value d).
Proof.
  intros Hpost. eexists. split.
  { unfold metric.tags, from_proto, __init__.
    rewrite getattr_setattr, decide_True by done.
    rewrite tags_or_empty_Some. reflexivity. }
  unfold dict_of_dimensions. cbn [dimensions].
  rewrite fold_left_app. simpl.
  rewrite fold_left_insert_skip by done.
  apply lookup_insert_eq.
Qed.

(** X5: every message can be read and written back: [to_proto] of
    [from_proto(proto)] returns a message with the same key, value,
    timestamp and step, whose dimensions make the same tags, and reading
    that message gives the same metric again. *)
Theorem to_proto_from_proto (proto : ProtoMetric) :
  exists proto',
    to_proto (from_proto proto) = Ok proto' /\
    proto_key proto' = proto_key proto /\
    proto_value proto' = proto_value proto /\
    proto_timestamp proto' = proto_timestamp proto /\
    proto_step proto' = proto_step proto /\
    dict_of_dimensions (dimensions proto')
      = dict_of_dimensions (dimensions proto) /\
    from_proto proto' = from_proto proto.
Proof.
  pose proof (proj2_dsig (proto_timestamp proto)) as Hts.
  pose proof (proj2_dsig (proto_step proto)) as Hs.
  pose proof (to_proto_of_constructed (proto_key proto) (proto_value proto)
                (proj1_sig (proto_timestamp proto))
                (proj1_sig (proto_step proto))
                (Some (dict_of_dimensions (dimensions proto))) Hts Hs) as Hto.
  destruct (from_proto_to_proto_attributes (proto_key proto)
              (proto_value proto) (proj1_sig (proto_timestamp proto))
              (proj1_sig (proto_step proto))
              (Some (dict_of_dimensions (dimensions proto))) Hts Hs)
    as (proto' & Hto' & Hfrom).
  rewrite Hto in Hto'. injection Hto' as <-.
  eexists. split; [exact Hto|]. cbn [proto_key proto_value proto_timestamp
    proto_step dimensions].
  repeat split; try done; try (by apply dsig_eq).
  by rewrite tags_or_empty_Some, dict_of_dimensions_items.
Qed.

(** X6: the properties of a metric built by [__init__] return the
    arguments it was given; [tags] is never [None]: it is the empty
    mapping when the argument was [None] or empty. *)
Theorem properties_of_constructed key value timestamp step tags :
  metric.key (__init__ key value timestamp step tags) = Ok (VStr key) /\
  metric.value (__init__ key value timestamp step tags) = Ok (VFloat value) /\
  metric.timestamp (__init__ key value timestamp step tags)
    = Ok (VInt timestamp) /\
  metric.step (__init__ key value timestamp step tags) = Ok (VInt step) /\
  metric.tags (__init__ key value timestamp step tags)
    = Ok (VDict (default ∅ tags)).
Proof.
  unfold metric.key, metric.value, metric.timestamp, metric.step, metric.tags,
    __init__.
  repeat (rewrite !getattr_setattr; simpl).
  repeat split; try done.
  destruct tags as [d|]; simpl; [|done].
  case_bool_decide; by subst.
Qed.

End more_on_metric.

(** * More on [SystemMetricsMonitor] *)

Section more_on_monitor.

Context {S V : Type} {src : source.Source S V}.
Variable env : Env.

Implicit Types (w : @World S V).

(** X7: the constructors of the CPU, disk and network sources are called
    outside any [try]: when one of them raises, [__init__] raises the
    same exception, whatever the GPU source would do. *)
Theorem required_source_failure_is_fatal (ext : @Externals S) run_id si sbl e :
  CPUMonitor ext = Raise e \/
  (exists cpu, CPUMonitor ext = Ok cpu /\ DiskMonitor ext = Raise e) \/
  (exists cpu disk,
     CPUMonitor ext = Ok cpu /\ DiskMonitor ext = Ok disk /\
     NetworkMonitor ext = Raise e) ->
  __init__ (V := V) ext run_id si sbl = Raise e.
Proof.
  intros Hraise. unfold __init__.
  destruct Hraise as [->|[(cpu & -> & ->)|(cpu & disk & -> & -> & ->)]]; done.
Qed.

Lemma start_success w :
  start None w =
  (Returns tt,
   mkWorld (set_process (Some (mkThread true "SystemMetricsMonitor")) (self w))
     (Some AtWhile)
     (trace w ++ [ThreadStart None; Log INFO StartedMonitoring])
     (get_run_calls w) (record_metrics_calls w)).
Proof.
  unfold start, try_except, bind, modify, thread_start, log, emit. simpl.
  f_equal. unfold set_thread, add_events, set_self. simpl.
  by rewrite <- (assoc_L (++)).
Qed.

(** X8: [start] never raises.  When the thread starts, [_process] holds
    a daemon thread named SystemMetricsMonitor that stands at the top of
    [monitor], and the start is logged; when it does not, a warning is
    logged and [_process] is unset.  Nothing else of the monitor
    changes. *)
Theorem start_never_raises w spawn_failure :
  exists w',
    start spawn_failure w = (Returns tt, w') /\
    self w' =
      set_process
        (match spawn_failure with
         | None => Some (mkThread true "SystemMetricsMonitor")
         | Some _ => None
         end) (self w) /\
    thread w' =
      match spawn_failure with
      | None => Some AtWhile
      | Some _ => thread w
      end /\
    trace w' =
      trace w ++
        match spawn_failure with
        | None => [ThreadStart None; Log INFO StartedMonitoring]
        | Some e => [ThreadStart (Some e); Log WARNING (FailedToStart e)]
        end.
Proof.
  destruct spawn_failure as [e|].
  - rewrite start_failure. eexists. split; [done|]. by destruct w as [[]].
  - rewrite start_success. by eexists.
Qed.

(** X9: nothing clears the shutdown event or changes the run id: once
    the event is set it stays set through every call and every stretch
    of the thread, and the run that is asked for stays the same. *)
Theorem shutdown_event_is_never_cleared calls w :
  _shutdown_event (self w) = true ->
  _shutdown_event (self (lifetime env calls w)) = true /\
  _run_id (self (lifetime env calls w)) = _run_id (self w).
Proof.
  intros Hset.
  destruct (evolves_lifetime env calls w) as (_ & _ & Hid & Hkeep & _).
  auto.
Qed.

Lemma tick_keeps w :
  _process (self (tick env w).2) = _process (self w) /\
  _shutdown_event (self (tick env w).2) = _shutdown_event (self w).
Proof.
  destruct (thread w) as [[|[|remaining]| |]|] eqn:Hth.
  - by rewrite tick_while.
  - by rewrite tick_for_done.
  - rewrite (tick_sample env w remaining) by done. simpl.
    destruct (env_get_run env (get_run_calls w)); [|done].
    by destruct (bool_decide _ || _).
  - rewrite tick_publish by done.
    by destruct (env_record_metrics env (record_metrics_calls w)).
  - by rewrite tick_exited.
  - unfold tick. by rewrite Hth.
Qed.

(** X10: the background thread never sets or clears the shutdown event
    and never touches [_process]: however long it runs, both are as they
    were; only [start] and [finish] write them. *)
Theorem thread_leaves_process_and_event fuel w :
  _process (self (run_thread env fuel w).2) = _process (self w) /\
  _shutdown_event (self (run_thread env fuel w).2) = _shutdown_event (self w).
Proof.
  revert w. induction fuel as [|fuel IH]; intros w; simpl.
  - by destruct (thread w) as [[]|].
  - destruct (tick_returns env w) as [w1 Htick].
    pose proof (tick_keeps w) as [Hp He]. rewrite Htick in Hp, He.
    destruct (IH w1) as [Hp1 He1].
    destruct (thread w) as [[]|]; try done;
      unfold bind; rewrite Htick; simpl in *; split; congruence.
Qed.

(** X11: a monitor whose shutdown event is set, as after [finish], cannot
    be started again to any effect: [start] starts a thread, and the
    thread returns at its first test of the event, without collecting,
    asking for the run or publishing. *)
Theorem restart_is_inert w fuel :
  _shutdown_event (self w) = true ->
  exists w1 w2,
    start None w = (Returns tt, w1) /\
    run_thread env (Datatypes.S fuel) w1 = (Returns tt, w2) /\
    thread w2 = Some Exited /\
    trace w2 = trace w ++ [ThreadStart None; Log INFO StartedMonitoring] /\
    monitors (self w2) = monitors (self w) /\
    _logging_step (self w2) = _logging_step (self w) /\
    get_run_calls w2 = get_run_calls w /\
    record_metrics_calls w2 = record_metrics_calls w.
Proof.
  intros Hset. eexists _, _. split; [apply start_success|].
  split.
  { erewrite run_thread_step; [|done|done|by apply tick_while].
    simpl. rewrite Hset. by apply run_thread_exited. }
  done.
Qed.

(** X12: with [samples_before_logging] zero or less the [for] loop has
    no iteration: a pass of the [while] loop goes straight to the
    publication, with no collection, no wait and no question about the
    run, and publishes what the sources hold. *)
Theorem cycle_without_samples w :
  thread w = Some AtWhile ->
  _shutdown_event (self w) = false ->
  samples_before_logging (self w) <= 0 ->
  env_record_metrics env (record_metrics_calls w) = None ->
  thread (lifetime env [Tick; Tick; Tick] w) = Some AtWhile /\
  trace (lifetime env [Tick; Tick; Tick] w) =
    trace w ++ loop_events [Aggregate] 0 (length (monitors (self w))) ++
      [RecordMetrics (aggregated w) (_logging_step (self w)) None] ++
      loop_events [Clear] 0 (length (monitors (self w))) /\
  get_run_calls (lifetime env [Tick; Tick; Tick] w) = get_run_calls w /\
  _logging_step (self (lifetime env [Tick; Tick; Tick] w))
    = _logging_step (self w) + 1.
Proof.
  intros Hth Hset Hk Hsink. unfold lifetime. cbn [fold_left perform].
  rewrite (tick_while env w) by done. rewrite Hset. cbn [snd].
  replace (Z.to_nat (samples_before_logging (self w))) with 0%nat by lia.
  rewrite (tick_for_done env (set_thread (Some (InFor 0)) w)) by done.
  cbn [snd].
  rewrite tick_publish by done. simpl. rewrite Hsink. done.
Qed.

(** X14: when the logger raises, [publish_metrics] raises the same
    exception to its caller; the step is not counted and the sources are
    not cleared, so that they keep their samples. *)
Theorem publish_metrics_raises w metrics e :
  env_record_metrics env (record_metrics_calls w) = Some e ->
  exists w',
    publish_metrics env metrics w = (Raises e, w') /\
    self w' = self w /\
    trace w' =
      trace w ++ [RecordMetrics metrics (_logging_step (self w)) (Some e)].
Proof.
  intros Hsink. unfold publish_metrics, bind, gets, record_metrics. simpl.
  rewrite Hsink. by eexists.
Qed.

(** X15: when the logger accepts the batch, [publish_metrics] returns
    having counted the step and called [clear_metrics] of every source,
    after the batch was handed over with the step as it was before. *)
Theorem publish_metrics_returns w metrics :
  env_record_metrics env (record_metrics_calls w) = None ->
  exists w',
    publish_metrics env metrics w = (Returns tt, w') /\
    _logging_step (self w') = _logging_step (self w) + 1 /\
    monitors (self w') = source.clear_metrics <$> monitors (self w) /\
    trace w' =
      trace w ++ [RecordMetrics metrics (_logging_step (self w)) None] ++
        loop_events [Clear] 0 (length (monitors (self w))).
Proof.
  intros Hsink. unfold publish_metrics, bind, gets, record_metrics. simpl.
  rewrite Hsink. unfold modify, for_monitor_in_self_monitors. simpl.
  rewrite (for_monitors_spec source.clear_metrics (fun _ _ => tt) [Clear])
    by done.
  simpl.
  destruct (fold_left _ _ _).
  eexists. split; [done|]. simpl.
  by rewrite <- (assoc_L (++)).
Qed.

Lemma aggregate_metrics_eq w :
  aggregate_metrics w =
  (Returns (aggregated w),
   add_events (loop_events [Aggregate] 0 (length (monitors (self w)))) w).
Proof.
  unfold aggregate_metrics, for_monitor_in_self_monitors.
  rewrite (for_monitors_spec id
             (fun s a => update a (source.aggregate_metrics s)) [Aggregate])
    by done.
  rewrite list_fmap_id, set_monitors_id. by destruct w.
Qed.

Lemma fold_left_update_skip (post : list S) (k : string)
    (acc : gmap string V) :
  Forall (fun s => source.aggregate_metrics s !! k = None) post ->
  fold_left (fun a s => update a (source.aggregate_metrics s)) post acc !! k =
  acc !! k.
Proof.
  intros Hpost. revert acc.
  induction Hpost as [|s post Hs _ IH]; intros acc; [done|].
  simpl. rewrite IH. unfold update. by rewrite lookup_union_r.
Qed.

(** X16: when several sources report a metric of the same name, the
    batch of [aggregate_metrics] holds the value of the last of them in
    the list of sources; [aggregate_metrics] changes nothing of the
    monitor. *)
Theorem later_source_wins w pre s post k v :
  monitors (self w) = pre ++ s :: post ->
  source.aggregate_metrics s !! k = Some v ->
  Forall (fun s' => source.aggregate_metrics s' !! k = None) post ->
  exists batch w',
    aggregate_metrics w = (Returns batch, w') /\
    batch !! k = Some v /\
    self w' = self w.
Proof.
  intros Hms Hk Hpost. rewrite aggregate_metrics_eq.
  eexists _, _. split; [done|]. split; [|done].
  unfold aggregated. rewrite Hms, fold_left_app. simpl.
  rewrite fold_left_update_skip by done.
  unfold update. by apply lookup_union_Some_l.
Qed.

Lemma lifetime_app calls1 calls2 w :
  lifetime env (calls1 ++ calls2) w = lifetime env calls2 (lifetime env calls1 w).
Proof. apply fold_left_app. Qed.

Lemma sampling_run r : forall w,
  thread w = Some (InFor r) ->
  _shutdown_event (self w) = false ->
  (forall i, (i < r)%nat ->
             env_get_run env (get_run_calls w + i) = Ok "RUNNING") ->
  thread (lifetime env (replicate r Tick) w) = Some (InFor 0) /\
  self (lifetime env (replicate r Tick) w) =
    set_monitors
      (Nat.iter r (fmap source.collect_metrics) (monitors (self w))) (self w) /\
  get_run_calls (lifetime env (replicate r Tick) w) = (get_run_calls w + r)%nat /\
  record_metrics_calls (lifetime env (replicate r Tick) w)
    = record_metrics_calls w /\
  attempted (trace (lifetime env (replicate r Tick) w)) = attempted (trace w) /\
  published (trace (lifetime env (replicate r Tick) w)) = published (trace w) /\
  waits (trace (lifetime env (replicate r Tick) w)) =
    waits (trace w) ++ replicate r (sampling_interval (self w)).
Proof.
  induction r as [|r IH]; intros w Hth Hset Hrun.
  - simpl. rewrite set_monitors_id, Nat.add_0_r, (right_id_L [] (++)). done.
  - change (lifetime env (replicate (Datatypes.S r) Tick) w)
      with (lifetime env (replicate r Tick) (tick env w).2).
    rewrite (tick_sample env w r) by done.
    assert (Hrun0 : env_get_run env (get_run_calls w) = Ok "RUNNING").
    { rewrite <- (Nat.add_0_r (get_run_calls w)). apply Hrun. lia. }
    rewrite Hrun0, Hset.
    rewrite bool_decide_eq_false_2 by (by intros ?). cbn [snd orb].
    destruct (IH (after_sample (InFor r) [] w))
      as (H1 & H2 & H3 & H4 & H5 & H6 & H7); try done.
    { intros i Hi. simpl.
      replace (Datatypes.S (get_run_calls w + i))
        with (get_run_calls w + Datatypes.S i)%nat by lia.
      apply Hrun. lia. }
    rewrite H1, H2, H3, H4, H5, H6, H7, Nat.iter_succ_r. simpl.
    rewrite !attempted_app, !published_app, !waits_app.
    unfold collected.
    rewrite attempted_loop_events, published_loop_events, waits_loop_events.
    simpl. rewrite !(right_id_L [] (++)), <- (assoc_L (++)).
    repeat split; try done; lia.
Qed.

(** X13: a whole pass of the [while] loop.  With a sampling interval
    that the wait takes, [n] samples before logging, a run that is
    RUNNING at the next [n] queries, the event unset and a logger that
    accepts: the thread collects from every source [n] times, waiting the
    sampling interval and asking for the run after each collection,
    publishes once the aggregate of what was collected at the current
    step, counts the step, clears the sources and is back at the test of
    the loop. *)
Theorem full_cycle w n :
  thread w = Some AtWhile ->
  _shutdown_event (self w) = false ->
  wait_accepts (sampling_interval (self w)) = true ->
  samples_before_logging (self w) = Z.of_nat n ->
  (forall i, (i < n)%nat ->
             env_get_run env (get_run_calls w + i) = Ok "RUNNING") ->
  env_record_metrics env (record_metrics_calls w) = None ->
  thread (lifetime env (replicate (n + 3) Tick) w) = Some AtWhile /\
  monitors (self (lifetime env (replicate (n + 3) Tick) w)) =
    source.clear_metrics <$>
      Nat.iter n (fmap source.collect_metrics) (monitors (self w)) /\
  attempted (trace (lifetime env (replicate (n + 3) Tick) w)) =
    attempted (trace w) ++
      [(fold_left (fun a s => update a (source.aggregate_metrics s))
          (Nat.iter n (fmap source.collect_metrics) (monitors (self w))) ∅,
        _logging_step (self w))] /\
  published (trace (lifetime env (replicate (n + 3) Tick) w)) =
    published (trace w) ++
      [(fold_left (fun a s => update a (source.aggregate_metrics s))
          (Nat.iter n (fmap source.collect_metrics) (monitors (self w))) ∅,
        _logging_step (self w))] /\
  waits (trace (lifetime env (replicate (n + 3) Tick) w)) =
    waits (trace w) ++ replicate n (sampling_interval (self w)) /\
  get_run_calls (lifetime env (replicate (n + 3) Tick) w)
    = (get_run_calls w + n)%nat /\
  _logging_step (self (lifetime env (replicate (n + 3) Tick) w))
    = _logging_step (self w) + 1.
Proof.
  intros Hth Hset _ Hn Hrun Hsink.
  replace (n + 3)%nat with (1 + (n + 2))%nat by lia.
  rewrite !replicate_add, !lifetime_app.
  change (lifetime env (replicate 1 Tick) w) with (tick env w).2.
  rewrite (tick_while env w) by done. rewrite Hset, Hn, Nat2Z.id. cbn [snd].
  destruct (sampling_run n (set_thread (Some (InFor n)) w))
    as (H1 & H2 & H3 & H4 & H5 & H6 & H7); try done.
  set (w2 := lifetime env (replicate n Tick) (set_thread (Some (InFor n)) w))
    in *.
  simpl in H2, H3, H4, H5, H6, H7.
  change (lifetime env (replicate 2 Tick) w2)
    with (tick env (tick env w2).2).2.
  rewrite (tick_for_done env w2) by done. cbn [snd].
  rewrite tick_publish by done. simpl.
  rewrite H4, Hsink. simpl.
  rewrite !attempted_app, !published_app, !waits_app.
  rewrite attempted_loop_events, published_loop_events, !waits_loop_events.
  simpl. rewrite attempted_loop_events, published_loop_events.
  unfold aggregated. simpl. rewrite H2, H3, H5, H6, H7. simpl.
  by rewrite waits_loop_events, (right_id_L [] (++)).
Qed.

(** X17: a [finish] that comes while the thread is in the [for] loop ends
    the thread at the end of the iteration at hand: the samples of the
    unfinished pass are not published, and the step is not counted. *)
Theorem finish_while_sampling w t remaining fuel :
  _process (self w) = Some t ->
  thread w = Some (InFor (Datatypes.S remaining)) ->
  exists w',
    finish env None (Datatypes.S fuel) w = (Returns tt, w') /\
    thread w' = Some Exited /\
    _process (self w') = None /\
    _shutdown_event (self w') = true /\
    attempted (trace w') = attempted (trace w) /\
    _logging_step (self w') = _logging_step (self w) /\
    last (trace w') = Some (Log INFO Terminated).
Proof.
  intros Hp Hth.
  rewrite (finish_joins env w t (InFor (Datatypes.S remaining))) by done.
  erewrite run_thread_step;
    [|done|done|by apply (tick_sample env (joining None w) remaining)].
  assert (Hexit : exists logged,
            attempted logged = [] /\
            match env_get_run env (get_run_calls (joining None w)) with
            | Ok status =>
                if bool_decide (status ≠ "RUNNING")
                   || _shutdown_event (self (joining None w))
                then after_sample Exited [] (joining None w)
                else after_sample (InFor remaining) [] (joining None w)
            | Raise e =>
                after_sample Exited [Log WARNING (FailedToGetRun e)]
                  (joining None w)
            end = after_sample Exited logged (joining None w)).
  { destruct (env_get_run env _) as [status|e];
      [exists []|by exists [Log WARNING (FailedToGetRun e)]].
    split; [done|]. simpl. by rewrite orb_true_r. }
  destruct Hexit as (logged & Hlogged & ->).
  rewrite run_thread_exited by done.
  eexists. split; [done|].
  cbn [thread self trace after_sample joining add_events set_self
       set_process set_shutdown_event set_monitors _process _shutdown_event
       _logging_step].
  rewrite last_snoc, !attempted_app. unfold collected.
  rewrite attempted_loop_events, Hlogged. simpl.
  by rewrite !(right_id_L [] (++)).
Qed.

(** X18: a [finish] that comes when the [for] loop is through lets the
    pass be published: the thread publishes the batch once, at the
    current step, and returns at the next test of the event. *)
Theorem finish_after_sampling w t fuel :
  _process (self w) = Some t ->
  thread w = Some AfterFor ->
  env_record_metrics env (record_metrics_calls w) = None ->
  exists w',
    finish env None (Datatypes.S (Datatypes.S fuel)) w = (Returns tt, w') /\
    thread w' = Some Exited /\
    _process (self w') = None /\
    attempted (trace w') =
      attempted (trace w) ++ [(aggregated w, _logging_step (self w))] /\
    published (trace w') =
      published (trace w) ++ [(aggregated w, _logging_step (self w))] /\
    _logging_step (self w') = _logging_step (self w) + 1 /\
    monitors (self w') = source.clear_metrics <$> monitors (self w).
Proof.
  intros Hp Hth Hsink.
  rewrite (finish_joins env w t AfterFor) by done.
  rewrite (run_publish env _ (joining None w)) by done.
  rewrite (run_thread_step env fuel (after_publish (joining None w))
             (set_thread (Some Exited) (after_publish (joining None w)))
             AtWhile); [|done|done|by rewrite tick_while].
  rewrite run_thread_exited by done.
  eexists. split; [done|]. simpl.
  rewrite !attempted_app, !published_app.
  rewrite !attempted_loop_events, !published_loop_events. simpl.
  rewrite ?attempted_loop_events, ?published_loop_events,
    ?(right_id_L [] (++)).
  unfold aggregated. simpl. repeat split; reflexivity.
Qed.

Lemma publishing_thread_stops w fuel :
  thread w = Some AfterFor -> _shutdown_event (self w) = true ->
  exists w',
    run_thread env (Datatypes.S (Datatypes.S fuel)) w = (Returns tt, w') /\
    thread w' = Some Exited /\
    length (attempted (trace w')) = Datatypes.S (length (attempted (trace w))) /\
    get_run_calls w' = get_run_calls w.
Proof.
  intros Hth Hset.
  erewrite run_thread_step; [|done|done|by apply tick_publish].
  destruct (env_record_metrics env (record_metrics_calls w)) as [e|].
  - rewrite run_thread_exited by done. eexists. split; [done|]. simpl.
    rewrite !attempted_app, attempted_loop_events, !length_app. simpl.
    repeat split; try done. lia.
  - rewrite (run_thread_step env fuel (after_publish w)
               (set_thread (Some Exited) (after_publish w)) AtWhile);
      [|done|done|rewrite tick_while by done; simpl; by rewrite Hset].
    rewrite run_thread_exited by done. eexists. split; [done|]. simpl.
    rewrite !attempted_app, !attempted_loop_events, !length_app. simpl.
    rewrite attempted_loop_events. simpl.
    repeat split; try done. lia.
Qed.

(** X19: once the shutdown event is set the thread returns within three
    stretches, wherever it stands: it asks for the run at most once
    more, and hands at most one more batch to the logger. *)
Theorem thread_stops_within_three w p fuel :
  thread w = Some p ->
  _shutdown_event (self w) = true ->
  (3 <= fuel)%nat ->
  exists w',
    run_thread env fuel w = (Returns tt, w') /\
    thread w' = Some Exited /\
    (length (attempted (trace w')) <= length (attempted (trace w)) + 1)%nat /\
    (get_run_calls w' <= get_run_calls w + 1)%nat.
Proof.
  intros Hth Hset Hfuel.
  destruct fuel as [|[|[|fuel]]]; try lia.
  destruct p as [|[|remaining]| |].
  - erewrite run_thread_step; [|done|done|by apply tick_while].
    rewrite Hset, run_thread_exited by done.
    eexists. split; [done|]. simpl. repeat split; try done; lia.
  - rewrite run_for_done by done.
    destruct (publishing_thread_stops (set_thread (Some AfterFor) w) fuel)
      as (w' & -> & Hexit & Hatt & Hrun); try done.
    exists w'. simpl in *. repeat split; try done; lia.
  - erewrite run_thread_step; [|done|done|by apply tick_sample].
    assert (Hexit : exists logged,
              attempted logged = [] /\
              match env_get_run env (get_run_calls w) with
              | Ok status =>
                  if bool_decide (status ≠ "RUNNING")
                     || _shutdown_event (self w)
                  then after_sample Exited [] w
                  else after_sample (InFor remaining) [] w
              | Raise e =>
                  after_sample Exited [Log WARNING (FailedToGetRun e)] w
              end = after_sample Exited logged w).
    { destruct (env_get_run env _) as [status|e];
        [exists []|by exists [Log WARNING (FailedToGetRun e)]].
      split; [done|]. by rewrite Hset, orb_true_r. }
    destruct Hexit as (logged & Hlogged & ->).
    rewrite run_thread_exited by done.
    eexists. split; [done|].
    cbn [thread trace get_run_calls after_sample].
    rewrite !attempted_app. unfold collected.
    rewrite attempted_loop_events, Hlogged. simpl.
    rewrite (right_id_L [] (++)). repeat split; try done; lia.
  - destruct (publishing_thread_stops w (Datatypes.S fuel))
      as (w' & -> & Hexit & Hatt & Hrun); try done.
    exists w'. repeat split; try done; lia.
  - rewrite run_thread_exited by done.
    eexists. split; [done|]. repeat split; try done; lia.
Qed.

(** X20: the loop goes on for as long as nothing stops it: with a
    sampling interval that the wait takes, the event unset, a run that
    is always RUNNING and a logger that always accepts, the thread has
    not returned after any number of stretches. *)
Theorem runs_while_running fuel : forall w p,
  thread w = Some p -> p <> Exited ->
  _shutdown_event (self w) = false ->
  wait_accepts (sampling_interval (self w)) = true ->
  (forall n, env_get_run env n = Ok "RUNNING") ->
  (forall n, env_record_metrics env n = None) ->
  (run_thread env fuel w).1 = Waits.
Proof.
  induction fuel as [|fuel IH]; intros w p Hth Hp Hset Hwait Hrun Hsink.
  - simpl. rewrite Hth. by destruct p.
  - destruct p as [|[|remaining]| |]; try done.
    + rewrite run_while by done. eapply IH; eauto; done.
    + rewrite run_for_done by done. eapply IH; eauto; done.
    + rewrite (run_sample env _ _ remaining) by done.
      eapply IH; eauto; done.
    + rewrite run_publish by done. eapply IH; eauto; done.
Qed.

(** X21: with a sampling interval that the wait takes, the thread
    returns for one of four reasons only: the shutdown event is set,
    [get_run] raises, the run is not RUNNING, or the logger raises.  A
    stretch that ends the thread has met one of them. *)
Theorem thread_ends_for_a_reason w p :
  thread w = Some p ->
  p <> Exited ->
  wait_accepts (sampling_interval (self w)) = true ->
  thread (tick env w).2 = Some Exited ->
  _shutdown_event (self w) = true \/
  (exists e, env_get_run env (get_run_calls w) = Raise e) \/
  (exists status, env_get_run env (get_run_calls w) = Ok status /\
                  status <> "RUNNING") \/
  (exists e, env_record_metrics env (record_metrics_calls w) = Some e).
Proof.
  intros Hth Hp _.
  destruct p as [|[|remaining]| |]; try done.
  - rewrite tick_while by done. simpl.
    destruct (_shutdown_event (self w)); [by left|done].
  - by rewrite tick_for_done.
  - rewrite (tick_sample env w remaining) by done. simpl.
    destruct (env_get_run env (get_run_calls w)) as [status|e];
      [|by right; left; eauto].
    case_bool_decide; [by right; right; left; eauto|].
    destruct (_shutdown_event (self w)); [by left|done].
  - rewrite tick_publish by done. simpl.
    destruct (env_record_metrics env (record_metrics_calls w)) as [e|];
      [by right; right; right; eauto|done].
Qed.

End more_on_monitor.

(** * The further statements at the example inputs *)

Section more_at_examples.

Import examples.

Abbreviation mock := (mock_source total).

Lemma eq_constructed_at_r2 :
  metric.__eq__
    (metric.__init__ "r2" (S754_finite false 15 (-4)) 1999 0 None)
    (metric.MetricObject
       (metric.__init__ "r2" (S754_finite false 15 (-4)) 1999 0 (Some ∅)))
  = true
  <-> "r2" = "r2" /\
      SFeqb (S754_finite false 15 (-4)) (S754_finite false 15 (-4)) = true /\
      1999 = 1999 /\ 0 = 0 /\
      metric.tags_or_empty None = metric.tags_or_empty (Some ∅).
Proof. apply eq_constructed. discriminate. Defined.

Lemma to_proto_constructed_at_r2 :
  exists proto,
    metric.to_proto
      (metric.__init__ "r2" (S754_finite false 15 (-4)) 1999 0
         (Some {["country" := "se"]})) = Ok proto /\
    metric.proto_key proto = "r2" /\
    metric.proto_value proto = S754_finite false 15 (-4) /\
    proj1_sig (metric.proto_timestamp proto) = 1999 /\
    proj1_sig (metric.proto_step proto) = 0 /\
    NoDup (metric.dim_key <$> metric.dimensions proto) /\
    length (metric.dimensions proto)
      = size (metric.tags_or_empty (Some {["country" := "se"]})) /\
    forall k v, metric.mkDimension k v ∈ metric.dimensions proto <->
                metric.tags_or_empty (Some {["country" := "se"]}) !! k
                = Some v.
Proof.
  apply to_proto_constructed; unfold metric.int64_range; lia.
Defined.

Lemma to_proto_beyond_int64_at_two_to_63 :
  metric.to_proto
    (metric.__init__ "r2" (S754_finite false 15 (-4)) 1999 (2 ^ 63) None)
  = Raise (ValueError "Value out of range").
Proof.
  apply to_proto_beyond_int64. unfold metric.int64_range. lia.
Defined.

Lemma from_proto_last_dimension_wins_at_country :
  exists tags,
    metric.tags
      (metric.from_proto
         (metric.mkProtoMetric "r2" (S754_finite false 15 (-4))
            (1999 ↾ I) (0 ↾ I)
            ([metric.mkDimension "country" "se"] ++
             metric.mkDimension "country" "no" ::
             [metric.mkDimension "city" "oslo"])))
      = Ok (VDict tags) /\
    tags !! metric.dim_key (metric.mkDimension "country" "no")
      = Some (metric.dim_value (metric.mkDimension "country" "no")).
Proof.
  apply from_proto_last_dimension_wins.
  repeat constructor. discriminate.
Defined.

Lemma required_source_failure_is_fatal_at_no_cpu :
  __init__ (V := Z) no_cpu "run" None None = Raise (Exception "no psutil").
Proof.
  apply required_source_failure_is_fatal. left. reflexivity.
Defined.

Lemma shutdown_event_is_never_cleared_when_finished :
  _shutdown_event
    (self (lifetime (src := mock) always_running
             [Start None; Tick; Tick; CollectMetrics; Finish None 3] finished))
  = true /\
  _run_id
    (self (lifetime (src := mock) always_running
             [Start None; Tick; Tick; CollectMetrics; Finish None 3] finished))
  = _run_id (self finished).
Proof.
  apply (shutdown_event_is_never_cleared (src := mock)). reflexivity.
Defined.

Lemma restart_is_inert_when_finished :
  exists w1 w2,
    start None finished = (Returns tt, w1) /\
    run_thread (src := mock) always_running 1 w1 = (Returns tt, w2) /\
    thread w2 = Some Exited /\
    trace w2 = trace finished ++ [ThreadStart None; Log INFO StartedMonitoring] /\
    monitors (self w2) = monitors (self finished) /\
    _logging_step (self w2) = _logging_step (self finished) /\
    get_run_calls w2 = get_run_calls finished /\
    record_metrics_calls w2 = record_metrics_calls finished.
Proof.
  apply (restart_is_inert (src := mock) always_running finished 0).
  reflexivity.
Defined.

Lemma cycle_without_samples_at_zero :
  thread (lifetime (src := mock) always_running [Tick; Tick; Tick]
            started_without_samples) = Some AtWhile /\
  trace (lifetime (src := mock) always_running [Tick; Tick; Tick]
           started_without_samples) =
    trace started_without_samples ++
      loop_events [Aggregate] 0
        (length (monitors (self started_without_samples))) ++
      [RecordMetrics (aggregated (src := mock) started_without_samples)
         (_logging_step (self started_without_samples)) None] ++
      loop_events [Clear] 0
        (length (monitors (self started_without_samples))) /\
  get_run_calls (lifetime (src := mock) always_running [Tick; Tick; Tick]
                   started_without_samples)
    = get_run_calls started_without_samples /\
  _logging_step (self (lifetime (src := mock) always_running
                         [Tick; Tick; Tick] started_without_samples))
    = _logging_step (self started_without_samples) + 1.
Proof.
  apply (cycle_without_samples (src := mock) always_running
           started_without_samples); (reflexivity || (simpl; lia)).
Defined.

Lemma full_cycle_of_three :
  thread (lifetime (src := mock) always_running (replicate (3 + 3) Tick)
            started) = Some AtWhile /\
  monitors (self (lifetime (src := mock) always_running
                    (replicate (3 + 3) Tick) started)) =
    source.clear_metrics (Source := mock) <$>
      Nat.iter 3 (fmap (source.collect_metrics (Source := mock)))
        (monitors (self started)) /\
  attempted (trace (lifetime (src := mock) always_running
                      (replicate (3 + 3) Tick) started)) =
    attempted (trace started) ++
      [(fold_left
          (fun a s => update a (source.aggregate_metrics (Source := mock) s))
          (Nat.iter 3 (fmap (source.collect_metrics (Source := mock)))
             (monitors (self started))) ∅,
        _logging_step (self started))] /\
  published (trace (lifetime (src := mock) always_running
                      (replicate (3 + 3) Tick) started)) =
    published (trace started) ++
      [(fold_left
          (fun a s => update a (source.aggregate_metrics (Source := mock) s))
          (Nat.iter 3 (fmap (source.collect_metrics (Source := mock)))
             (monitors (self started))) ∅,
        _logging_step (self started))] /\
  waits (trace (lifetime (src := mock) always_running
                  (replicate (3 + 3) Tick) started)) =
    waits (trace started) ++ replicate 3 (sampling_interval (self started)) /\
  get_run_calls (lifetime (src := mock) always_running
                   (replicate (3 + 3) Tick) started)
    = (get_run_calls started + 3)%nat /\
  _logging_step (self (lifetime (src := mock) always_running
                         (replicate (3 + 3) Tick) started))
    = _logging_step (self started) + 1.
Proof.
  apply (full_cycle (src := mock) always_running started 3); reflexivity.
Defined.

Lemma publish_metrics_raises_at_refusal :
  exists w',
    publish_metrics (src := mock) refusing {[ "cpu" := 1 ]} publishing
      = (Raises (Exception "run deleted"), w') /\
    self w' = self publishing /\
    trace w' =
      trace publishing ++
        [RecordMetrics {[ "cpu" := 1 ]} (_logging_step (self publishing))
           (Some (Exception "run deleted"))].
Proof.
  apply (publish_metrics_raises (src := mock) refusing publishing).
  reflexivity.
Defined.

Lemma publish_metrics_returns_when_accepted :
  exists w',
    publish_metrics (src := mock) always_running {[ "cpu" := 1 ]} publishing
      = (Returns tt, w') /\
    _logging_step (self w') = _logging_step (self publishing) + 1 /\
    monitors (self w') =
      source.clear_metrics (Source := mock) <$> monitors (self publishing) /\
    trace w' =
      trace publishing ++
        [RecordMetrics {[ "cpu" := 1 ]} (_logging_step (self publishing)) None]
        ++ loop_events [Clear] 0 (length (monitors (self publishing))).
Proof.
  apply (publish_metrics_returns (src := mock) always_running publishing).
  reflexivity.
Defined.

Lemma later_source_wins_at_same_name :
  exists batch w',
    aggregate_metrics (src := mock) same_name = (Returns batch, w') /\
    batch !! "cpu" = Some 4 /\
    self w' = self same_name.
Proof.
  apply (later_source_wins (src := mock) same_name
           [mkMock "cpu" 1 [1]] (mkMock "cpu" 2 [2; 2]) [] "cpu" 4);
    (reflexivity || constructor).
Defined.

Lemma finish_while_sampling_at_sampling :
  exists w',
    finish (src := mock) always_running None 1 sampling = (Returns tt, w') /\
    thread w' = Some Exited /\
    _process (self w') = None /\
    _shutdown_event (self w') = true /\
    attempted (trace w') = attempted (trace sampling) /\
    _logging_step (self w') = _logging_step (self sampling) /\
    last (trace w') = Some (Log INFO Terminated).
Proof.
  apply (finish_while_sampling (src := mock) always_running sampling
           monitor_thread 0 0); reflexivity.
Defined.

Lemma finish_after_sampling_at_publishing :
  exists w',
    finish (src := mock) always_running None 2 publishing = (Returns tt, w') /\
    thread w' = Some Exited /\
    _process (self w') = None /\
    attempted (trace w') =
      attempted (trace publishing) ++
        [(aggregated (src := mock) publishing,
          _logging_step (self publishing))] /\
    published (trace w') =
      published (trace publishing) ++
        [(aggregated (src := mock) publishing,
          _logging_step (self publishing))] /\
    _logging_step (self w') = _logging_step (self publishing) + 1 /\
    monitors (self w') =
      source.clear_metrics (Source := mock) <$> monitors (self publishing).
Proof.
  apply (finish_after_sampling (src := mock) always_running publishing
           monitor_thread 0); reflexivity.
Defined.

Lemma thread_stops_within_three_when_stopping :
  exists w',
    run_thread (src := mock) always_running 3 stopping = (Returns tt, w') /\
    thread w' = Some Exited /\
    (length (attempted (trace w')) <= length (attempted (trace stopping)) + 1)%nat /\
    (get_run_calls w' <= get_run_calls stopping + 1)%nat.
Proof.
  apply (thread_stops_within_three (src := mock) always_running stopping
           AtWhile 3); (reflexivity || lia).
Defined.

Lemma runs_while_running_when_started :
  (run_thread (src := mock) always_running 50 started).1 = Waits.
Proof.
  apply (runs_while_running (src := mock) always_running 50 started AtWhile);
    (reflexivity || discriminate || (intros; reflexivity)).
Defined.

Lemma thread_ends_for_a_reason_when_unreachable :
  _shutdown_event (self sampling) = true \/
  (exists e, env_get_run unreachable (get_run_calls sampling) = Raise e) \/
  (exists status, env_get_run unreachable (get_run_calls sampling) = Ok status /\
                  status <> "RUNNING") \/
  (exists e, env_record_metrics unreachable (record_metrics_calls sampling)
             = Some e).
Proof.
  apply (thread_ends_for_a_reason (src := mock) unreachable sampling (InFor 1));
    (reflexivity || discriminate).
Defined.

End more_at_examples.
